(** * be-mern-app-note: the note-taking backend of [index.js]

    A shallow embedding of the Express handlers of [index.js] and of the
    two mongoose models.  A handler is a function from the request and
    the collections to the new collections and the response; the body
    of a [try] block runs in a state-and-exception monad whose state is
    the database, and the [catch] clause turns a thrown exception into
    the handler's error response.  That is a request served alone; the
    registration handler is also cut at its [await]s, to follow two
    registrations that are in flight together.

    Strings are sequences of 8-bit code units (the Latin-1 range of
    JavaScript's UTF-16 code units); the fields of a request body are
    strings, string arrays and booleans, or absent.  The libraries the
    handlers call ([validator], [bcrypt], the JWS layer of
    [jsonwebtoken], the ObjectId cast and the regular expressions of the
    driver) are interfaces given as type classes, with the laws the
    proofs use.  [utilities.js], which holds [authenticateToken], is not
    part of the sources: the handlers behind it take the decoded payload
    as [req.user], and token validation follows the specification. *)

From Stdlib Require Import String Ascii List ZArith Bool Lia.
From Stdlib Require Import Permutation DecimalString DecimalZ.
Import ListNotations.

Local Open Scope string_scope.
Local Open Scope Z_scope.
Local Open Scope list_scope.
Set Warnings "-register-all".

(** ** JSON values and responses *)

Inductive json : Type :=
| JNull
| JBool (b : bool)
| JNum (z : Z)
| JStr (s : string)
| JArr (items : list json)
| JObj (fields : list (string * json)).

(** [obj.key], [None] when the key is absent or the value is no object. *)
Fixpoint assoc (key : string) (fields : list (string * json)) : option json :=
  match fields with
  | [] => None
  | (k, v) :: rest => if String.eqb k key then Some v else assoc key rest
  end.

Definition get (key : string) (j : json) : option json :=
  match j with
  | JObj fields => assoc key fields
  | _ => None
  end.

(** Every string value that occurs in a JSON value, at any depth. *)
Fixpoint strings_of (j : json) : list string :=
  match j with
  | JStr s => [s]
  | JArr items => flat_map strings_of items
  | JObj fields => flat_map (fun kv => strings_of (snd kv)) fields
  | _ => []
  end.

(** The string values of an object outside one of its top-level fields. *)
Definition strings_outside (key : string) (j : json) : list string :=
  match j with
  | JObj fields =>
      flat_map (fun kv => if String.eqb (fst kv) key then [] else strings_of (snd kv))
               fields
  | _ => strings_of j
  end.

Definition mem_string (s : string) (l : list string) : bool :=
  existsb (String.eqb s) l.

(** What a handler leaves on the wire: the status set by [res.status]
    (200 when it is not called) and the body written by [res.json];
    [sent = None] when the handler wrote nothing. *)
Record response : Type := {
  status : Z;
  sent : option json
}.

(** [res.status(code).json(obj)] *)
Definition res_json (code : Z) (obj : json) : response :=
  {| status := code; sent := Some obj |}.

(** [res.status(code)] with no [json] or [send] call after it. *)
Definition res_status (code : Z) : response :=
  {| status := code; sent := None |}.

(** [{ error: true, message }] *)
Definition error_body (message : string) : json :=
  JObj [("error", JBool true); ("message", JStr message)].

(** A body is an explicit error object when it carries [error: true]
    and a [message] string. *)
Definition is_error_object (j : json) : bool :=
  match get "error" j, get "message" j with
  | Some (JBool true), Some (JStr _) => true
  | _, _ => false
  end.

Definition explicit_error (r : response) : bool :=
  match sent r with
  | Some j => is_error_object j
  | None => false
  end.

(** ** Exceptions and the database monad *)

Inductive exn : Type :=
| MongoNetworkError
| MongoDuplicateKey        (* E11000 *)
| CastError
| ValidationError
| JwtSecretMissing         (* secretOrPrivateKey must have a value *)
| RegExpSyntaxError.

Inductive outcome (A : Type) : Type :=
| Return (a : A)
| Throw (e : exn).

Arguments Return {A} a.
Arguments Throw {A} e.

(** ** The models *)

(** [models/user.model.js]: every field is an optional-by-schema string;
    [_id] is the ObjectId in its hexadecimal form, [createdOn] a time in
    milliseconds (a JSON text shows it as an ISO date string; the model
    keeps the number). *)
Module User.

Record t : Type := {
  _id : string;
  fullName : string;
  email : string;
  password : string;
  createdOn : Z
}.

(** [toJSON] of a document made by [new User({ ... })]: the keys in the
    order the constructor was given them, then [_id] and the schema's
    default, then the version key that [save] adds. *)
Definition toJSON (u : t) : json :=
  JObj [("fullName", JStr (fullName u));
        ("email", JStr (email u));
        ("password", JStr (password u));
        ("_id", JStr (_id u));
        ("createdOn", JNum (createdOn u));
        ("__v", JNum 0)].

(** A document lists its keys in the order in which they were set: one
    made by [new User({ ... })] as above, one read back by [findOne] in
    the order of the stored document, which starts with [_id]. *)
Inductive key_order : Type :=
| Constructed
| Stored.

Definition serialised (o : key_order) (u : t) : json :=
  match o with
  | Constructed => toJSON u
  | Stored =>
      JObj [("_id", JStr (_id u));
            ("fullName", JStr (fullName u));
            ("email", JStr (email u));
            ("password", JStr (password u));
            ("createdOn", JNum (createdOn u));
            ("__v", JNum 0)]
  end.

(** [User.findOne({ email })]: the first document whose email is the
    given string, compared exactly. *)
Definition findOne_email (e : string) (coll : list t) : option t :=
  find (fun u => String.eqb (email u) e) coll.

(** [User.findOne({ _id })] after the cast of the id. *)
Definition findOne_id (oid : string) (coll : list t) : option t :=
  find (fun u => String.eqb (_id u) oid) coll.

(** [user.save()] of a new document: an insert; the collection's only
    index is the one on [_id] (the schema declares no other). *)
Definition insert (u : t) (coll : list t) : outcome (list t) :=
  if existsb (fun v => String.eqb (_id v) (_id u)) coll
  then Throw MongoDuplicateKey
  else Return (coll ++ [u]).

End User.

(** The note model ([note.model.js]). *)
Module Note.

Record t : Type := {
  _id : string;
  title : string;
  content : string;
  tags : list string;
  isPinned : bool;
  userId : string;
  createdOn : Z
}.

Definition toJSON (n : t) : json :=
  JObj [("title", JStr (title n));
        ("content", JStr (content n));
        ("tags", JArr (map JStr (tags n)));
        ("isPinned", JBool (isPinned n));
        ("userId", JStr (userId n));
        ("_id", JStr (_id n));
        ("createdOn", JNum (createdOn n));
        ("__v", JNum 0)].

(** The filter [{ _id: oid, userId: uid }]. *)
Definition by_id_and_owner (oid uid : string) (n : t) : bool :=
  String.eqb (_id n) oid && String.eqb (userId n) uid.

(** The filter [{ userId: uid }]. *)
Definition by_owner (uid : string) (n : t) : bool :=
  String.eqb (userId n) uid.

Definition findOne (filter : t -> bool) (coll : list t) : option t :=
  List.find filter coll.

Definition find (filter : t -> bool) (coll : list t) : list t :=
  List.filter filter coll.

(** The schema's [required] paths, checked by [save]. *)
Definition validate (n : t) : bool :=
  negb (String.eqb (title n) "") && negb (String.eqb (content n) "")
  && negb (String.eqb (userId n) "").

Definition insert (n : t) (coll : list t) : outcome (list t) :=
  if negb (validate n) then Throw ValidationError
  else if existsb (fun m => String.eqb (_id m) (_id n)) coll
  then Throw MongoDuplicateKey
  else Return (coll ++ [n]).

(** [note.save()] of a document read from the collection: the update
    of the document with that [_id]. *)
Fixpoint replace (n : t) (coll : list t) : list t :=
  match coll with
  | [] => []
  | m :: rest =>
      if String.eqb (_id m) (_id n) then n :: rest else m :: replace n rest
  end.

Definition update (n : t) (coll : list t) : outcome (list t) :=
  if negb (validate n) then Throw ValidationError
  else Return (replace n coll).

(** [Note.deleteOne(filter)]: removes the first match. *)
Fixpoint deleteOne (filter : t -> bool) (coll : list t) : list t :=
  match coll with
  | [] => []
  | m :: rest => if filter m then rest else m :: deleteOne filter rest
  end.

(** [.sort({ isPinned: -1 })]: descending on the boolean key, [true]
    before [false]; an insertion sort that keeps equal keys in order. *)
Definition before (a b : t) : bool :=
  isPinned a || negb (isPinned b).

Fixpoint insert_sorted (n : t) (l : list t) : list t :=
  match l with
  | [] => [n]
  | m :: rest =>
      if before n m then n :: m :: rest else m :: insert_sorted n rest
  end.

Fixpoint sort_isPinned_desc (l : list t) : list t :=
  match l with
  | [] => []
  | n :: rest => insert_sorted n (sort_isPinned_desc rest)
  end.

End Note.

(** ** The libraries *)

(** [validator]'s [isEmail], used by the [body("email").isEmail()] chains. *)
Class Validator : Type := {
  isEmail : string -> bool
}.

(** [bcrypt]: [bcrypt_hash data rounds salt] is [bcrypt.hash(data, rounds)]
    when the library draws [salt]; [bcrypt_compare data encrypted] is
    [bcrypt.compare].  A hash verifies against the data it was made from,
    and is the 60-character modular-crypt string. *)
Class Bcrypt : Type := {
  bcrypt_hash : string -> Z -> string -> string;
  bcrypt_compare : string -> string -> bool;
  bcrypt_compare_hash :
    forall data rounds salt,
      bcrypt_compare data (bcrypt_hash data rounds salt) = true;
  bcrypt_hash_length :
    forall data rounds salt,
      String.length (bcrypt_hash data rounds salt) = 60%nat
}.

(** The driver: the cast of a string to an ObjectId ([None] is mongoose's
    CastError), and [new RegExp(source, "i")] as the predicate [$regex]
    applies ([None] is the SyntaxError of an ill-formed source). *)
Class Driver : Type := {
  castObjectId : string -> option string;
  RegExp_i : string -> option (string -> bool)
}.

(** [jsonwebtoken]. *)
Module Jwt.

(** The payload of the tokens this server signs: [{ user, iat, exp }],
    the times in seconds.  The embedded account is the document as it
    was serialised when the token was signed: its fields, and the order
    [keys] in which the document listed them. *)
Record payload : Type := {
  user : User.t;
  keys : User.key_order;
  iat : Z;
  exp : Z
}.

(** The JSON text that is signed. *)
Definition toJSON (p : payload) : json :=
  JObj [("user", User.serialised (keys p) (user p));
        ("iat", JNum (iat p));
        ("exp", JNum (exp p))].

(** The JWS layer (HS256 over the serialised payload): a token signed
    with a key verifies under that key and decodes to its payload; the
    payload is in the token in clear, and [jwt.decode] reads it without
    a key. *)
Class Jws : Type := {
  jws_sign : string -> payload -> string;
  jws_verify : string -> string -> option payload;
  jws_decode : string -> option payload;
  jws_verify_sign :
    forall key p, jws_verify key (jws_sign key p) = Some p;
  jws_decode_sign :
    forall key p, jws_decode (jws_sign key p) = Some p
}.

(** [expiresIn: "1h"], in seconds ([ms("1h") / 1000]). *)
Definition expiresIn_1h : Z := 3600.

(** [jwt.sign({ user }, secretOrPrivateKey, { expiresIn })] of a
    document that lists its keys in the order [o], at clock reading
    [now] (milliseconds): [iat = floor(now / 1000)],
    [exp = iat + expiresIn]; a missing or empty secret throws. *)
Definition sign `{Jws} (u : User.t) (o : User.key_order)
           (secretOrPrivateKey : option string)
           (expiresIn : Z) (now : Z) : outcome string :=
  match secretOrPrivateKey with
  | None => Throw JwtSecretMissing
  | Some key =>
      if String.eqb key "" then Throw JwtSecretMissing
      else
        let timestamp := now / 1000 in
        Return (jws_sign key {| user := u;
                                keys := o;
                                iat := timestamp;
                                exp := timestamp + expiresIn |})
  end.

End Jwt.

(** ** Requests and the environment of a request *)

(** [req.body] after [express.json()], at the fields the routes read;
    [None] is [undefined]. *)
Record req_body : Type := {
  fullName : option string;
  email : option string;
  password : option string;
  title : option string;
  content : option string;
  tags : option (list string);
  isPinned : option bool
}.

Record request : Type := {
  body : req_body;
  user : Jwt.payload;          (* req.user, set by authenticateToken *)
  noteId : string;             (* req.params.noteId *)
  query : option string        (* req.query.query *)
}.

(** What a request reads from outside the handler: the signing secret,
    the clock ([clock k] is the k-th reading of [Date.now()]), the
    ObjectId drawn for a new document, the salt [bcrypt] draws, and
    whether the k-th call to the database fails. *)
Record env : Type := {
  ACCESS_TOKEN_SECRET : option string;
  clock : nat -> Z;
  new_ObjectId : string;
  salt : string;
  fault : nat -> option exn
}.

Record db : Type := {
  users : list User.t;
  notes : list Note.t
}.

(** The body of a [try] block. *)
Definition M (A : Type) : Type := db -> db * outcome A.

Definition ret {A} (a : A) : M A := fun s => (s, Return a).

Definition throw {A} (e : exn) : M A := fun s => (s, Throw e).

Definition bind {A B} (m : M A) (k : A -> M B) : M B :=
  fun s =>
    match m s with
    | (s', Return a) => k a s'
    | (s', Throw e) => (s', Throw e)
    end.

Notation "x <- m ;; k" := (bind m (fun x => k))
  (at level 61, m at next level, right associativity).

Definition lift {A} (o : outcome A) : M A := fun s => (s, o).

(** [try { m } catch (err) { return handler }] *)
Definition try_catch (m : M response) (handler : exn -> response)
  : db -> db * response :=
  fun s =>
    match m s with
    | (s', Return r) => (s', r)
    | (s', Throw e) => (s', handler e)
    end.

(** A call to the database: it fails when the environment says so. *)
Definition await_db (flt : option exn) : M unit :=
  match flt with
  | Some e => throw e
  | None => ret tt
  end.

Definition get_users : M (list User.t) := fun s => (s, Return (users s)).

Definition get_notes : M (list Note.t) := fun s => (s, Return (notes s)).

Definition put_users (coll : list User.t) : M unit :=
  fun s => ({| users := coll; notes := notes s |}, Return tt).

Definition put_notes (coll : list Note.t) : M unit :=
  fun s => ({| users := users s; notes := coll |}, Return tt).

(** *** Queries *)

Definition User_findOne_email (flt : option exn) (e : string) : M (option User.t) :=
  _ <- await_db flt ;;
  coll <- get_users ;;
  ret (User.findOne_email e coll).

Definition User_findOne_id `{Driver} (flt : option exn) (id : string)
  : M (option User.t) :=
  match castObjectId id with
  | None => throw CastError
  | Some oid =>
      _ <- await_db flt ;;
      coll <- get_users ;;
      ret (User.findOne_id oid coll)
  end.

Definition User_save (flt : option exn) (u : User.t) : M unit :=
  _ <- await_db flt ;;
  coll <- get_users ;;
  coll' <- lift (User.insert u coll) ;;
  put_users coll'.

(** [Note.findOne({ _id: id, userId: uid })] *)
Definition Note_findOne `{Driver} (flt : option exn) (id uid : string)
  : M (option Note.t) :=
  match castObjectId id with
  | None => throw CastError
  | Some oid =>
      _ <- await_db flt ;;
      coll <- get_notes ;;
      ret (Note.findOne (Note.by_id_and_owner oid uid) coll)
  end.

(** [Note.find(filter)] *)
Definition Note_find (flt : option exn) (filter : Note.t -> bool)
  : M (list Note.t) :=
  _ <- await_db flt ;;
  coll <- get_notes ;;
  ret (Note.find filter coll).

(** [note.save()] of a new document. *)
Definition Note_save_new (flt : option exn) (n : Note.t) : M unit :=
  _ <- await_db flt ;;
  coll <- get_notes ;;
  coll' <- lift (Note.insert n coll) ;;
  put_notes coll'.

(** [note.save()] of a document read by [findOne]. *)
Definition Note_save (flt : option exn) (n : Note.t) : M unit :=
  _ <- await_db flt ;;
  coll <- get_notes ;;
  coll' <- lift (Note.update n coll) ;;
  put_notes coll'.

(** [Note.deleteOne({ _id: id, userId: uid })] *)
Definition Note_deleteOne `{Driver} (flt : option exn) (id uid : string) : M unit :=
  match castObjectId id with
  | None => throw CastError
  | Some oid =>
      _ <- await_db flt ;;
      coll <- get_notes ;;
      put_notes (Note.deleteOne (Note.by_id_and_owner oid uid) coll)
  end.

(** ** express-validator *)

(** The value a chain ran on, as [errors.array()] echoes it: a field
    of the body is a string, an array of strings, or absent. *)
Inductive submitted : Type :=
| Undefined
| Text (s : string)
| Texts (l : list string).

Definition text (v : option string) : submitted :=
  match v with
  | Some s => Text s
  | None => Undefined
  end.

Definition texts (v : option (list string)) : submitted :=
  match v with
  | Some l => Texts l
  | None => Undefined
  end.

(** An entry of [errors.array()]:
    [{ type, value, msg, path, location }]. *)
Record verr : Type := {
  value : submitted;
  msg : string;
  path : string
}.

(** The entry as [res.json] writes it; an [undefined] value is left out. *)
Definition verr_toJSON (e : verr) : json :=
  JObj ([("type", JStr "field")]
        ++ match value e with
           | Undefined => []
           | Text s => [("value", JStr s)]
           | Texts l => [("value", JArr (map JStr l))]
           end
        ++ [("msg", JStr (msg e));
            ("path", JStr (path e));
            ("location", JStr "body")]).

(** The string a standard validator sees: [undefined] reads as [""]. *)
Definition toString (v : option string) : string :=
  match v with
  | Some s => s
  | None => ""
  end.

(** One validator of a chain with its [withMessage]; every validator of
    a chain runs (no chain bails). *)
Definition check (field : string) (v : submitted) (ok : bool) (message : string)
  : list verr :=
  if ok then [] else [{| value := v; msg := message; path := field |}].

Definition notEmpty (s : string) : bool := negb (String.eqb s "").

Definition isLength (min max : nat) (s : string) : bool :=
  (min <=? String.length s)%nat && (String.length s <=? max)%nat.

Definition all_chars (p : ascii -> bool) (s : string) : bool :=
  forallb p (list_ascii_of_string s).

(** [\s] on the 8-bit range: TAB, LF, VT, FF, CR, space and NBSP. *)
Definition is_space (c : ascii) : bool :=
  let n := nat_of_ascii c in
  ((9 <=? n) && (n <=? 13) || (n =? 32) || (n =? 160))%nat.

(** [[A-Za-z]] *)
Definition is_letter (c : ascii) : bool :=
  let n := nat_of_ascii c in
  ((65 <=? n) && (n <=? 90) || (97 <=? n) && (n <=? 122))%nat.

(** [/^[A-Za-z\s']+$/] *)
Definition matches_name (s : string) : bool :=
  notEmpty s
  && all_chars (fun c => is_letter c || is_space c || Ascii.eqb c "'"%char) s.

(** [typeof tag === "string" && tag.length < 25 && !/\s/.test(tag)] on a
    tag that is a string. *)
Definition tag_ok (tag : string) : bool :=
  (String.length tag <? 25)%nat && all_chars (fun c => negb (is_space c)) tag.

Section Validation.
Context `{Validator}.

(** The chains of [/create-account]. *)
Definition create_account_errors (b : req_body) : list verr :=
  check "fullName" (text (fullName b))
        (notEmpty (toString (fullName b))) "Full name is required"
  ++ check "fullName" (text (fullName b))
           (matches_name (toString (fullName b)))
           "Full name must not contain numbers"
  ++ check "email" (text (email b))
           (notEmpty (toString (email b))) "Email is required"
  ++ check "email" (text (email b))
           (isEmail (toString (email b))) "Invalid email format"
  ++ check "password" (text (password b))
           (notEmpty (toString (password b))) "Password is required"
  ++ check "password" (text (password b))
           (isLength 5 25 (toString (password b)))
           "Password must be between 5 and 25 characters".

(** The chains of [/login]. *)
Definition login_errors (b : req_body) : list verr :=
  check "email" (text (email b))
        (notEmpty (toString (email b))) "Email is required"
  ++ check "email" (text (email b))
           (isEmail (toString (email b))) "Invalid email format"
  ++ check "password" (text (password b))
           (notEmpty (toString (password b))) "Password is required".

End Validation.

(** The chains of [/add-notes] and [/edit-notes/:noteId]; the custom
    validator of [tags] throws on [undefined], which counts as a failure. *)
Definition note_errors (b : req_body) : list verr :=
  check "title" (text (title b))
        (isLength 0 225 (toString (title b)))
        "Title must be less than 225 characters"
  ++ check "tags" (texts (tags b))
           (match tags b with Some _ => true | None => false end)
           "Tags must be an array"
  ++ check "tags" (texts (tags b))
           (match tags b with Some l => forallb tag_ok l | None => false end)
           "Invalid tags format, tags should be without spacing and less than 25 characters"
  ++ check "content" (text (content b))
           (notEmpty (toString (content b))) "Content is required".

(** [errors.isEmpty()] *)
Definition isEmpty (errors : list verr) : bool :=
  match errors with
  | [] => true
  | _ :: _ => false
  end.

Definition validation_error (errors : list verr) : response :=
  res_json 400 (JObj [("error", JBool true);
                      ("message", JStr "Validation error");
                      ("details", JArr (map verr_toJSON errors))]).

(** JavaScript truthiness of a string-or-undefined value. *)
Definition truthy (v : option string) : bool :=
  match v with
  | Some s => negb (String.eqb s "")
  | None => false
  end.

Definition defined {A} (v : option A) : bool :=
  match v with
  | Some _ => true
  | None => false
  end.

(** ** The handlers of [index.js] *)

Section Handlers.
Context `{Validator} `{Bcrypt} `{Jwt.Jws} `{Driver}.

(** [POST /create-account] *)
Definition create_account (e : env) (req : request) : db -> db * response :=
  let errors := create_account_errors (body req) in
  if negb (isEmpty errors) then fun s => (s, validation_error errors)
  else
    let fullName := toString (fullName (body req)) in
    let email := toString (email (body req)) in
    let password := toString (password (body req)) in
    try_catch
      (isUser <- User_findOne_email (fault e 0) email ;;
       match isUser with
       | Some _ => ret (res_json 400 (error_body "User already exists"))
       | None =>
           let hashedPassword := bcrypt_hash password 10 (salt e) in
           let user := {| User._id := new_ObjectId e;
                          User.fullName := fullName;
                          User.email := email;
                          User.password := hashedPassword;
                          User.createdOn := clock e 0 |} in
           _ <- User_save (fault e 1) user ;;
           accessToken <- lift (Jwt.sign user User.Constructed
                                         (ACCESS_TOKEN_SECRET e)
                                         Jwt.expiresIn_1h (clock e 1)) ;;
           ret (res_json 200
                  (JObj [("error", JBool false);
                         ("user", User.toJSON user);
                         ("accessToken", JStr accessToken);
                         ("message", JStr "Registration Successful")]))
       end)
      (fun _ => res_json 500 (error_body "Internal Server Error")).

(** *** [/create-account] at its [await]s

    The handler is an [async] function: Node runs it up to an [await],
    serves other requests meanwhile, and resumes it when the awaited
    call has answered.  [create_account] is the handler of a request
    that is served alone.  Here the same body is cut where
    [User.findOne] answers: what is decided by then, and what the
    handler does from there on ([bcrypt.hash], [user.save],
    [jwt.sign]). *)
Definition create_account_lookup (e : env) (req : request) (s : db)
  : option response :=
  let errors := create_account_errors (body req) in
  if negb (isEmpty errors) then Some (validation_error errors)
  else
    let email := toString (email (body req)) in
    match User_findOne_email (fault e 0) email s with
    | (_, Return (Some _)) =>
        Some (res_json 400 (error_body "User already exists"))
    | (_, Return None) => None
    | (_, Throw _) => Some (res_json 500 (error_body "Internal Server Error"))
    end.

Definition create_account_save (e : env) (req : request)
  : db -> db * response :=
  let fullName := toString (fullName (body req)) in
  let email := toString (email (body req)) in
  let password := toString (password (body req)) in
  try_catch
    (let hashedPassword := bcrypt_hash password 10 (salt e) in
     let user := {| User._id := new_ObjectId e;
                    User.fullName := fullName;
                    User.email := email;
                    User.password := hashedPassword;
                    User.createdOn := clock e 0 |} in
     _ <- User_save (fault e 1) user ;;
     accessToken <- lift (Jwt.sign user User.Constructed
                                   (ACCESS_TOKEN_SECRET e)
                                   Jwt.expiresIn_1h (clock e 1)) ;;
     ret (res_json 200
            (JObj [("error", JBool false);
                   ("user", User.toJSON user);
                   ("accessToken", JStr accessToken);
                   ("message", JStr "Registration Successful")])))
    (fun _ => res_json 500 (error_body "Internal Server Error")).

(** The handler from the answer [found] of its lookup on. *)
Definition create_account_resume (e : env) (req : request)
           (found : option response) : db -> db * response :=
  match found with
  | Some r => fun s => (s, r)
  | None => create_account_save e req
  end.

(** Two registrations in flight: the lookup of the second is answered
    before the first has saved, so both read the collection as it was;
    then the first handler resumes, then the second.  The answers are
    in the order of the requests. *)
Definition register_concurrently (e1 : env) (req1 : request)
           (e2 : env) (req2 : request) (s : db) : db * (response * response) :=
  let found1 := create_account_lookup e1 req1 s in
  let found2 := create_account_lookup e2 req2 s in
  let (s1, r1) := create_account_resume e1 req1 found1 s in
  let (s2, r2) := create_account_resume e2 req2 found2 s1 in
  (s2, (r1, r2)).

(** [POST /login] *)
Definition login (e : env) (req : request) : db -> db * response :=
  let errors := login_errors (body req) in
  if negb (isEmpty errors) then fun s => (s, validation_error errors)
  else if negb (truthy (email (body req)))
  then fun s => (s, res_json 400 (error_body "Email is required"))
  else if negb (truthy (password (body req)))
  then fun s => (s, res_json 400 (error_body "Password is required"))
  else
    let email := toString (email (body req)) in
    let password := toString (password (body req)) in
    try_catch
      (userInfo <- User_findOne_email (fault e 0) email ;;
       match userInfo with
       | None => ret (res_json 400 (error_body "User not found, check your email"))
       | Some userInfo =>
           let passwordMatch := bcrypt_compare password (User.password userInfo) in
           if String.eqb (User.email userInfo) email && passwordMatch then
             accessToken <- lift (Jwt.sign userInfo User.Stored
                                           (ACCESS_TOKEN_SECRET e)
                                           Jwt.expiresIn_1h (clock e 0)) ;;
             ret (res_json 200
                    (JObj [("error", JBool false);
                           ("message", JStr "Login Successfull");
                           ("email", JStr email);
                           ("accessToken", JStr accessToken)]))
           else ret (res_json 400 (error_body "Invalid Credential"))
       end)
      (fun _ => res_json 500 (error_body "Internal Server Error")).

(** [GET /get-user] *)
Definition get_user (e : env) (req : request) : db -> db * response :=
  let user := Jwt.user (user req) in
  try_catch
    (isUser <- User_findOne_id (fault e 0) (User._id user) ;;
     match isUser with
     | None => ret (res_status 401)
     | Some isUser =>
         ret (res_json 200
                (JObj [("error", JBool false);
                       ("user", JObj [("FullName", JStr (User.fullName isUser));
                                      ("email", JStr (User.email isUser));
                                      ("_id", JStr (User._id isUser));
                                      ("createdOn", JNum (User.createdOn isUser))]);
                       ("message", JStr "User retrieved successfully")]))
     end)
    (fun _ => res_json 500
                (error_body "An error occurred while retrieving user data.")).

(** [POST /add-notes] *)
Definition add_notes (e : env) (req : request) : db -> db * response :=
  let errors := note_errors (body req) in
  if negb (isEmpty errors) then fun s => (s, validation_error errors)
  else
    let user := Jwt.user (user req) in
    if negb (truthy (title (body req)))
    then fun s => (s, res_json 400 (error_body "Title is required"))
    else if negb (truthy (content (body req)))
    then fun s => (s, res_json 400 (error_body "Content is required"))
    else
      try_catch
        (let note := {| Note._id := new_ObjectId e;
                        Note.title := toString (title (body req));
                        Note.content := toString (content (body req));
                        Note.tags := match tags (body req) with
                                     | Some l => l
                                     | None => []
                                     end;
                        Note.isPinned := false;
                        Note.userId := User._id user;
                        Note.createdOn := clock e 0 |} in
         _ <- Note_save_new (fault e 0) note ;;
         ret (res_json 201
                (JObj [("error", JBool false);
                       ("note", Note.toJSON note);
                       ("message", JStr "New note has been created")])))
        (fun _ => res_json 500 (error_body "Internal Server Error")).

(** The assignments of [/edit-notes]:
    [if (title) note.title = title; ...; if (isPinned) note.isPinned = isPinned]. *)
Definition apply_edit (b : req_body) (note : Note.t) : Note.t :=
  {| Note._id := Note._id note;
     Note.title := if truthy (title b) then toString (title b) else Note.title note;
     Note.content :=
       if truthy (content b) then toString (content b) else Note.content note;
     Note.tags := match tags b with
                  | Some l => l
                  | None => Note.tags note
                  end;
     Note.isPinned := match isPinned b with
                      | Some true => true
                      | _ => Note.isPinned note
                      end;
     Note.userId := Note.userId note;
     Note.createdOn := Note.createdOn note |}.

(** [PUT /edit-notes/:noteId] *)
Definition edit_notes (e : env) (req : request) : db -> db * response :=
  let errors := note_errors (body req) in
  if negb (isEmpty errors) then fun s => (s, validation_error errors)
  else
    let user := Jwt.user (user req) in
    if negb (truthy (title (body req))) && negb (truthy (content (body req)))
       && negb (defined (tags (body req)))
    then fun s => (s, res_json 400 (error_body "No Changes Provided"))
    else
      try_catch
        (note <- Note_findOne (fault e 0) (noteId req) (User._id user) ;;
         match note with
         | None => ret (res_json 400 (error_body "Notes not found"))
         | Some note =>
             let note := apply_edit (body req) note in
             _ <- Note_save (fault e 1) note ;;
             ret (res_json 200
                    (JObj [("error", JBool false);
                           ("note", Note.toJSON note);
                           ("message", JStr "Note has been updated")]))
         end)
        (fun _ => res_json 500 (error_body "Internal server error")).

(** [GET /get-all-notes] *)
Definition get_all_notes (e : env) (req : request) : db -> db * response :=
  let user := Jwt.user (user req) in
  try_catch
    (found <- Note_find (fault e 0) (Note.by_owner (User._id user)) ;;
     let notes := Note.sort_isPinned_desc found in
     ret (res_json 200
            (JObj [("error", JBool false);
                   ("notes", JArr (map Note.toJSON notes));
                   ("message", JStr "All notes retrieved successfully")])))
    (fun _ => res_json 500 (error_body "Internal server error")).

(** [DELETE /delete-note/:noteId] *)
Definition delete_note (e : env) (req : request) : db -> db * response :=
  let user := Jwt.user (user req) in
  try_catch
    (note <- Note_findOne (fault e 0) (noteId req) (User._id user) ;;
     match note with
     | None => ret (res_json 400 (error_body "Note not found"))
     | Some _ =>
         _ <- Note_deleteOne (fault e 1) (noteId req) (User._id user) ;;
         ret (res_json 200
                (JObj [("error", JBool false);
                       ("message", JStr "Note deleted successfully")]))
     end)
    (fun _ => res_json 400 (error_body "Note not found")).

(** [note.isPinned = isPinned || false] *)
Definition set_isPinned (b : bool) (note : Note.t) : Note.t :=
  {| Note._id := Note._id note;
     Note.title := Note.title note;
     Note.content := Note.content note;
     Note.tags := Note.tags note;
     Note.isPinned := b || false;
     Note.userId := Note.userId note;
     Note.createdOn := Note.createdOn note |}.

(** [PUT /update-note-ispinned/:noteId] *)
Definition update_note_ispinned (e : env) (req : request)
  : db -> db * response :=
  let user := Jwt.user (user req) in
  match isPinned (body req) with
  | None => fun s => (s, res_json 400 (error_body "No changes provided"))
  | Some b =>
      try_catch
        (note <- Note_findOne (fault e 0) (noteId req) (User._id user) ;;
         match note with
         | None => ret (res_json 404 (error_body "Note not found"))
         | Some note =>
             let note := set_isPinned b note in
             _ <- Note_save (fault e 1) note ;;
             ret (res_json 200
                    (JObj [("error", JBool false);
                           ("note", Note.toJSON note);
                           ("message", JStr "Note pinned change successfully")]))
         end)
        (fun _ => res_json 500 (error_body "Internal server error"))
  end.

(** [GET /search-notes/] *)
Definition search_notes (e : env) (req : request) : db -> db * response :=
  let user := Jwt.user (user req) in
  if negb (truthy (query req))
  then fun s => (s, res_json 400 (error_body "Search query is needed!"))
  else
    try_catch
      (match RegExp_i (toString (query req)) with
       | None => throw RegExpSyntaxError
       | Some re =>
           matchingNote <-
             Note_find (fault e 0)
               (fun n => Note.by_owner (User._id user) n
                         && (re (Note.title n) || re (Note.content n))) ;;
           ret (res_json 200
                  (JObj [("error", JBool false);
                         ("notes", JArr (map Note.toJSON matchingNote));
                         ("message", JStr "Search notes successfully retrieved")]))
       end)
      (fun _ => res_json 500 (error_body "Internal Server Error")).

End Handlers.

(** The routes that [authenticateToken] guards and that read or write
    notes, as [index.js] registers them. *)
Inductive note_route : Type :=
| AddNotes              (* POST   /add-notes *)
| EditNotes             (* PUT    /edit-notes/:noteId *)
| GetAllNotes           (* GET    /get-all-notes *)
| DeleteNote            (* DELETE /delete-note/:noteId *)
| UpdateNoteIsPinned    (* PUT    /update-note-ispinned/:noteId *)
| SearchNotes.          (* GET    /search-notes/ *)

Definition note_handler `{Driver} (route : note_route)
  : env -> request -> db -> db * response :=
  match route with
  | AddNotes => add_notes
  | EditNotes => edit_notes
  | GetAllNotes => get_all_notes
  | DeleteNote => delete_note
  | UpdateNoteIsPinned => update_note_ispinned
  | SearchNotes => search_notes
  end.

(** Every value that occurs in a JSON value, the value itself first. *)
Fixpoint subvalues (j : json) : list json :=
  j :: match j with
       | JArr items => flat_map subvalues items
       | JObj fields => flat_map (fun kv => subvalues (snd kv)) fields
       | _ => []
       end.

(** Every value that occurs in the body of a response. *)
Definition values_of (r : response) : list json :=
  match sent r with
  | Some j => subvalues j
  | None => []
  end.

(** The [accessToken] string of a response. *)
Definition accessToken_of (r : response) : option string :=
  match sent r with
  | Some j =>
      match get "accessToken" j with
      | Some (JStr t) => Some t
      | _ => None
      end
  | None => None
  end.

(** The error responses of registration and login, by the kinds of the
    specification's taxonomy. *)
Definition DuplicateAccount : response :=
  res_json 400 (error_body "User already exists").

Definition AccountNotFound : response :=
  res_json 400 (error_body "User not found, check your email").

Definition InvalidCredentials : response :=
  res_json 400 (error_body "Invalid Credential").

Definition InternalServerError : response :=
  res_json 500 (error_body "Internal Server Error").

(** ** Token validation *)

Inductive token_error : Type :=
| InvalidToken
| ExpiredToken.

(** Modelled from the spec: [utilities.js], which exports
    [authenticateToken], is not among the source files.  ValidateToken
    "verifies signature against the process-wide secret; fails with
    InvalidToken if signature check fails or payload is malformed",
    then "checks expiry against current time; fails with ExpiredToken
    if past expiry" (a token is valid while now < expiry), and "on
    success, extracts and returns the embedded account identity".  The
    current time [now] is in milliseconds, the expiry in seconds. *)
Definition ValidateToken `{Jwt.Jws} (secret : string) (now : Z)
           (tokenString : string) : token_error + Jwt.payload :=
  match Jwt.jws_verify secret tokenString with
  | None => inl InvalidToken
  | Some p =>
      if Jwt.exp p <=? now / 1000 then inl ExpiredToken else inr p
  end.

(** The account identity a validated token yields. *)
Definition identity (p : Jwt.payload) : string := User._id (Jwt.user p).

(** ** The vocabulary of the properties *)

(** [req.user.user._id], the identity the token was validated to. *)
Definition caller (r : request) : string := User._id (Jwt.user (user r)).

(** The database with another notes collection. *)
Definition with_notes (s : db) (coll : list Note.t) : db :=
  {| users := users s; notes := coll |}.

(** The document [/create-account] builds with [new User(...)]. *)
Definition registered_user `{Bcrypt} (e : env) (req : request) : User.t :=
  {| User._id := new_ObjectId e;
     User.fullName := toString (fullName (body req));
     User.email := toString (email (body req));
     User.password := bcrypt_hash (toString (password (body req))) 10 (salt e);
     User.createdOn := clock e 0 |}.

(** The collections after that document is inserted. *)
Definition registered_db `{Bcrypt} (e : env) (req : request) (s : db) : db :=
  {| users := users s ++ [registered_user e req]; notes := notes s |}.

(** The document [/add-notes] builds with [new Note(...)]. *)
Definition new_note (e : env) (req : request) : Note.t :=
  {| Note._id := new_ObjectId e;
     Note.title := toString (title (body req));
     Note.content := toString (content (body req));
     Note.tags := match tags (body req) with
                  | Some l => l
                  | None => []
                  end;
     Note.isPinned := false;
     Note.userId := caller req;
     Note.createdOn := clock e 0 |}.

(** The success responses, by their bodies. *)
Definition registration_ok (u : User.t) (accessToken : string) : response :=
  res_json 200 (JObj [("error", JBool false);
                      ("user", User.toJSON u);
                      ("accessToken", JStr accessToken);
                      ("message", JStr "Registration Successful")]).

Definition login_ok (mail accessToken : string) : response :=
  res_json 200 (JObj [("error", JBool false);
                      ("message", JStr "Login Successfull");
                      ("email", JStr mail);
                      ("accessToken", JStr accessToken)]).

Definition user_ok (u : User.t) : response :=
  res_json 200
    (JObj [("error", JBool false);
           ("user", JObj [("FullName", JStr (User.fullName u));
                          ("email", JStr (User.email u));
                          ("_id", JStr (User._id u));
                          ("createdOn", JNum (User.createdOn u))]);
           ("message", JStr "User retrieved successfully")]).

Definition note_ok (code : Z) (n : Note.t) (message : string) : response :=
  res_json code (JObj [("error", JBool false);
                       ("note", Note.toJSON n);
                       ("message", JStr message)]).

Definition notes_ok (l : list Note.t) (message : string) : response :=
  res_json 200 (JObj [("error", JBool false);
                      ("notes", JArr (map Note.toJSON l));
                      ("message", JStr message)]).

(** The token [jwt.sign] returns for an account, serialised in the key
    order [o], at clock reading [now]. *)
Definition token_for `{Jwt.Jws} (key : string) (u : User.t)
           (o : User.key_order) (now : Z) : string :=
  Jwt.jws_sign key {| Jwt.user := u;
                      Jwt.keys := o;
                      Jwt.iat := now / 1000;
                      Jwt.exp := now / 1000 + Jwt.expiresIn_1h |}.

(** The notes of every owner but [uid], in collection order. *)
Definition others (uid : string) (coll : list Note.t) : list Note.t :=
  filter (fun n => negb (Note.by_owner uid n)) coll.

(** Pinned notes first: a run of pinned notes, then a run of unpinned. *)
Definition pinned_first (l : list Note.t) : Prop :=
  exists pinned unpinned,
    l = pinned ++ unpinned
    /\ Forall (fun n => Note.isPinned n = true) pinned
    /\ Forall (fun n => Note.isPinned n = false) unpinned.

(** A value is owned by [uid] when the [userId] it carries, if it
    carries one, is [uid]. *)
Definition owned_by (uid : string) (j : json) : Prop :=
  forall x, get "userId" j = Some x -> x = JStr uid.

(** What a handler run with the identity [uid] may do: it leaves the
    accounts and the notes of the other owners as they were, and every
    value in its response is owned by [uid]. *)
Definition isolated (uid : string) (s : db) (out : db * response) : Prop :=
  users (fst out) = users s
  /\ others uid (notes (fst out)) = others uid (notes s)
  /\ Forall (owned_by uid) (values_of (snd out)).

(** ** Instances of the library interfaces

    Executable stand-ins that satisfy the laws of the interfaces: they
    show the laws can be met and let the handlers run on concrete
    requests.  The token format keeps the key and the payload in the
    clear, field after field. *)
Module Fixture.

(** A field is written with [%] before each [;] or [%] in it, and
    closed by [;]. *)
Definition special (c : ascii) : bool :=
  Ascii.eqb c ";"%char || Ascii.eqb c "%"%char.

Fixpoint put_field (f rest : string) : string :=
  match f with
  | EmptyString => String ";" rest
  | String c f' =>
      if special c then String "%" (String c (put_field f' rest))
      else String c (put_field f' rest)
  end.

Definition cons_field (c : ascii) (r : option (string * string))
  : option (string * string) :=
  match r with
  | Some (f, rest) => Some (String c f, rest)
  | None => None
  end.

Fixpoint take_field (s : string) : option (string * string) :=
  match s with
  | EmptyString => None
  | String c s' =>
      if Ascii.eqb c ";"%char then Some (EmptyString, s')
      else if Ascii.eqb c "%"%char then
        match s' with
        | EmptyString => None
        | String d s'' => cons_field d (take_field s'')
        end
      else cons_field c (take_field s')
  end.

Definition put_num (z : Z) (rest : string) : string :=
  put_field (NilEmpty.string_of_int (Z.to_int z)) rest.

Definition take_num (s : string) : option (Z * string) :=
  match take_field s with
  | Some (f, rest) =>
      match NilEmpty.int_of_string f with
      | Some d => Some (Z.of_int d, rest)
      | None => None
      end
  | None => None
  end.

Definition put_keys (o : User.key_order) : string :=
  match o with
  | User.Constructed => "new"
  | User.Stored => "stored"
  end.

Definition take_keys (s : string) : option User.key_order :=
  if String.eqb s "new" then Some User.Constructed
  else if String.eqb s "stored" then Some User.Stored
  else None.

Definition encode (key : string) (p : Jwt.payload) : string :=
  let u := Jwt.user p in
  put_field key
    (put_field (User._id u)
       (put_field (User.fullName u)
          (put_field (User.email u)
             (put_field (User.password u)
                (put_num (User.createdOn u)
                   (put_field (put_keys (Jwt.keys p))
                      (put_num (Jwt.iat p)
                         (put_num (Jwt.exp p) EmptyString)))))))).

Notation "'let?' x := m 'in' k" :=
  (match m with Some x => k | None => None end)
  (at level 10, x pattern, m at level 100, k at level 200).

Definition decode (s : string) : option (string * Jwt.payload) :=
  let? (key, s) := take_field s in
  let? (id, s) := take_field s in
  let? (name, s) := take_field s in
  let? (mail, s) := take_field s in
  let? (pw, s) := take_field s in
  let? (created, s) := take_num s in
  let? (order, s) := take_field s in
  let? o := take_keys order in
  let? (issued, s) := take_num s in
  let? (expires, s) := take_num s in
  match s with
  | EmptyString =>
      Some (key, {| Jwt.user := {| User._id := id;
                                   User.fullName := name;
                                   User.email := mail;
                                   User.password := pw;
                                   User.createdOn := created |};
                    Jwt.keys := o;
                    Jwt.iat := issued;
                    Jwt.exp := expires |})
  | String _ _ => None
  end.

Definition verify (key token : string) : option Jwt.payload :=
  match decode token with
  | Some (k, p) => if String.eqb k key then Some p else None
  | None => None
  end.

Definition payload_of (token : string) : option Jwt.payload :=
  match decode token with
  | Some (_, p) => Some p
  | None => None
  end.

Lemma take_put_field (f rest : string) :
  take_field (put_field f rest) = Some (f, rest).
Proof.
  induction f as [|c f IH]; simpl.
  - reflexivity.
  - unfold special.
    destruct (Ascii.eqb c ";") eqn:Hsemi; simpl.
    + rewrite IH. reflexivity.
    + destruct (Ascii.eqb c "%") eqn:Hpct; simpl.
      * rewrite IH. reflexivity.
      * rewrite Hsemi, Hpct, IH. reflexivity.
Qed.

Lemma take_put_num (z : Z) (rest : string) :
  take_num (put_num z rest) = Some (z, rest).
Proof.
  unfold take_num, put_num.
  rewrite take_put_field, NilEmpty.isi, DecimalZ.of_to.
  reflexivity.
Qed.

Lemma decode_encode (key : string) (p : Jwt.payload) :
  decode (encode key p) = Some (key, p).
Proof.
  destruct p as [[id name mail pw created] o issued expires].
  unfold decode, encode; simpl.
  repeat rewrite take_put_field.
  repeat rewrite take_put_num.
  rewrite take_put_field.
  repeat rewrite take_put_num.
  destruct o; reflexivity.
Qed.

Lemma verify_encode (key : string) (p : Jwt.payload) :
  verify key (encode key p) = Some p.
Proof.
  unfold verify. rewrite decode_encode, String.eqb_refl. reflexivity.
Qed.

Lemma payload_encode (key : string) (p : Jwt.payload) :
  payload_of (encode key p) = Some p.
Proof. unfold payload_of. rewrite decode_encode. reflexivity. Qed.

#[export] Instance jws : Jwt.Jws := {
  Jwt.jws_sign := encode;
  Jwt.jws_verify := verify;
  Jwt.jws_decode := payload_of;
  Jwt.jws_verify_sign := verify_encode;
  Jwt.jws_decode_sign := payload_encode
}.

(** The first [n] characters of [s], padded with dots. *)
Fixpoint fit (n : nat) (s : string) : string :=
  match n with
  | O => EmptyString
  | S n' =>
      match s with
      | EmptyString => String "." (fit n' EmptyString)
      | String c s' => String c (fit n' s')
      end
  end.

Definition hash (data : string) (rounds : Z) (salt : string) : string :=
  ("$2b$10$" ++ fit 53 data)%string.

Definition compare (data encrypted : string) : bool :=
  String.eqb encrypted (hash data 10 EmptyString).

Lemma fit_length (n : nat) (s : string) : String.length (fit n s) = n.
Proof.
  revert s; induction n as [|n IH]; intros s; simpl.
  - reflexivity.
  - destruct s; simpl; rewrite IH; reflexivity.
Qed.

Lemma compare_hash (data : string) (rounds : Z) (salt : string) :
  compare data (hash data rounds salt) = true.
Proof. unfold compare, hash. apply String.eqb_refl. Qed.

Lemma hash_length (data : string) (rounds : Z) (salt : string) :
  String.length (hash data rounds salt) = 60%nat.
Proof.
  unfold hash. cbn [append String.length].
  rewrite fit_length. reflexivity.
Qed.

#[export] Instance bcrypt : Bcrypt := {
  bcrypt_hash := hash;
  bcrypt_compare := compare;
  bcrypt_compare_hash := compare_hash;
  bcrypt_hash_length := hash_length
}.

#[export] Instance validator : Validator := {
  isEmail := fun s => existsb (Ascii.eqb "@"%char) (list_ascii_of_string s)
}.

Definition is_hex (c : ascii) : bool :=
  let n := nat_of_ascii c in
  ((48 <=? n) && (n <=? 57) || (97 <=? n) && (n <=? 102))%nat.

Fixpoint contains (needle s : string) : bool :=
  String.prefix needle s
  || match s with
     | EmptyString => false
     | String _ s' => contains needle s'
     end.

#[export] Instance driver : Driver := {
  castObjectId := fun s =>
    if (String.length s =? 24)%nat && all_chars is_hex s
    then Some s else None;
  RegExp_i := fun source => Some (contains source)
}.

(** *** Concrete requests *)

Definition no_user : User.t :=
  {| User._id := ""; User.fullName := ""; User.email := "";
     User.password := ""; User.createdOn := 0 |}.

Definition anonymous : Jwt.payload :=
  {| Jwt.user := no_user; Jwt.keys := User.Stored;
     Jwt.iat := 0; Jwt.exp := 0 |}.

Definition empty_body : req_body :=
  {| fullName := None; email := None; password := None; title := None;
     content := None; tags := None; isPinned := None |}.

(** [{ fullName: "Alice A", email: "alice@x.com", password: "pass1" }] *)
Definition alice_body : req_body :=
  {| fullName := Some "Alice A"; email := Some "alice@x.com";
     password := Some "pass1"; title := None; content := None;
     tags := None; isPinned := None |}.

Definition alice_req : request :=
  {| body := alice_body; user := anonymous; noteId := ""; query := None |}.

(** An environment with the secret set, a working database, and the
    clock at [now] for every reading. *)
Definition env_at (now : Z) (oid : string) : env :=
  {| ACCESS_TOKEN_SECRET := Some "s3cret";
     clock := fun _ => now;
     new_ObjectId := oid;
     salt := "saltsaltsaltsaltsalt22";
     fault := fun _ => None |}.

Definition empty_db : db := {| users := []; notes := [] |}.

Definition alice_id : string := "65a000000000000000000001".
Definition bob_id : string := "65b000000000000000000002".

End Fixture.

(** * Properties *)

(** ** Validation *)

Lemma check_nil (field : string) (v : submitted) (ok : bool) (message : string) :
  check field v ok message = [] -> ok = true.
Proof. destruct ok; [reflexivity | discriminate]. Qed.

Ltac split_checks H :=
  repeat match type of H with
         | _ ++ _ = [] =>
             let H1 := fresh "Hcheck" in
             apply app_eq_nil in H; destruct H as [H1 H];
             apply check_nil in H1
         end;
  apply check_nil in H.

Lemma notEmpty_truthy (v : option string) :
  notEmpty (toString v) = true -> truthy v = true.
Proof. destruct v as [s|]; simpl; [trivial | discriminate]. Qed.

Lemma notEmpty_defined (v : option string) :
  notEmpty (toString v) = true -> v = Some (toString v).
Proof. destruct v as [s|]; simpl; [reflexivity | discriminate]. Qed.

Section ValidationFacts.
Context `{Validator}.

(** A body that passes the chains of [/create-account] has its three
    fields, and a password of 5 to 25 characters. *)
Lemma create_account_validated (b : req_body) :
  create_account_errors b = [] ->
  fullName b = Some (toString (fullName b))
  /\ email b = Some (toString (email b))
  /\ password b = Some (toString (password b))
  /\ (5 <= String.length (toString (password b)) <= 25)%nat.
Proof.
  intros Hval. unfold create_account_errors in Hval. split_checks Hval.
  repeat split; try (apply notEmpty_defined; assumption);
    unfold isLength in Hval; apply andb_prop in Hval;
    destruct Hval as [Hmin Hmax];
    [apply Nat.leb_le in Hmin | apply Nat.leb_le in Hmax]; assumption.
Qed.

(** What registration accepts, login accepts. *)
Lemma login_accepts_registered (b b' : req_body) :
  create_account_errors b = [] ->
  email b' = email b -> password b' = password b ->
  login_errors b' = []
  /\ truthy (email b') = true /\ truthy (password b') = true.
Proof.
  intros Hval Hmail Hpw. unfold create_account_errors in Hval.
  split_checks Hval. unfold login_errors. rewrite Hmail, Hpw.
  rewrite Hcheck1, Hcheck2, Hcheck3. simpl.
  repeat split; apply notEmpty_truthy; assumption.
Qed.

End ValidationFacts.

(** ** Registration and login *)

Lemma findOne_email_none (mail : string) (coll : list User.t) :
  User.findOne_email mail coll = None <->
  forall u, In u coll -> User.email u <> mail.
Proof.
  unfold User.findOne_email. split.
  - intros Hnone u Hin Heq.
    apply (find_none _ _ Hnone) in Hin. simpl in Hin.
    rewrite Heq, String.eqb_refl in Hin. discriminate.
  - intros Hfresh. destruct (find _ coll) as [u|] eqn:Hfind; [|reflexivity].
    apply find_some in Hfind. destruct Hfind as [Hin Heq].
    apply String.eqb_eq in Heq. exfalso. exact (Hfresh u Hin Heq).
Qed.

Lemma findOne_email_some (mail : string) (coll : list User.t) (u : User.t) :
  In u coll -> User.email u = mail ->
  exists v, User.findOne_email mail coll = Some v.
Proof.
  intros Hin Heq. destruct (User.findOne_email mail coll) as [v|] eqn:Hfind.
  - exists v. reflexivity.
  - exfalso. apply (proj1 (findOne_email_none mail coll) Hfind u Hin Heq).
Qed.

(** Unfolds the monad of the [try] blocks down to the decisions a
    handler takes. *)
Ltac run_handler :=
  unfold try_catch, User_findOne_email, User_findOne_id, User_save,
    Note_findOne, Note_find, Note_save_new, Note_save, Note_deleteOne,
    await_db, get_users, get_notes, put_users, put_notes;
  unfold bind, lift, ret, throw; cbv beta.

(** Case analysis on a decision, then the reduction it enables. *)
Tactic Notation "decide_on" constr(x) :=
  destruct x; cbv beta iota.

Tactic Notation "decide_on" constr(x) "as" simple_intropattern(p) :=
  destruct x as p; cbv beta iota.

Section Registration.
Context `{Validator} `{Bcrypt} `{Jwt.Jws}.

(** [/create-account] as the sequence of decisions it takes. *)
Lemma create_account_cases (e : env) (req : request) (s : db) :
  create_account e req s =
  if negb (isEmpty (create_account_errors (body req)))
  then (s, validation_error (create_account_errors (body req)))
  else
    match fault e 0%nat with
    | Some _ => (s, InternalServerError)
    | None =>
        match User.findOne_email (toString (email (body req))) (users s) with
        | Some _ => (s, DuplicateAccount)
        | None =>
            match fault e 1%nat with
            | Some _ => (s, InternalServerError)
            | None =>
                match User.insert (registered_user e req) (users s) with
                | Throw _ => (s, InternalServerError)
                | Return coll =>
                    let s' := {| users := coll; notes := notes s |} in
                    match Jwt.sign (registered_user e req) User.Constructed
                                   (ACCESS_TOKEN_SECRET e)
                                   Jwt.expiresIn_1h (clock e 1) with
                    | Throw _ => (s', InternalServerError)
                    | Return accessToken =>
                        (s', registration_ok (registered_user e req) accessToken)
                    end
                end
            end
        end
    end.
Proof.
  unfold create_account. fold (registered_user e req).
  destruct (negb (isEmpty (create_account_errors (body req)))); [reflexivity|].
  run_handler.
  decide_on (fault e 0%nat); [reflexivity|].
  decide_on (User.findOne_email (toString (email (body req))) (users s));
    [reflexivity|].
  decide_on (fault e 1%nat); [reflexivity|].
  decide_on (User.insert (registered_user e req) (users s)); [|reflexivity].
  decide_on (Jwt.sign (registered_user e req) User.Constructed
                      (ACCESS_TOKEN_SECRET e)
                      Jwt.expiresIn_1h (clock e 1)); reflexivity.
Qed.

(** [/login] as the sequence of decisions it takes. *)
Lemma login_cases (e : env) (req : request) (s : db) :
  login e req s =
  if negb (isEmpty (login_errors (body req)))
  then (s, validation_error (login_errors (body req)))
  else if negb (truthy (email (body req)))
  then (s, res_json 400 (error_body "Email is required"))
  else if negb (truthy (password (body req)))
  then (s, res_json 400 (error_body "Password is required"))
  else
    match fault e 0%nat with
    | Some _ => (s, InternalServerError)
    | None =>
        match User.findOne_email (toString (email (body req))) (users s) with
        | None => (s, AccountNotFound)
        | Some userInfo =>
            if String.eqb (User.email userInfo) (toString (email (body req)))
               && bcrypt_compare (toString (password (body req)))
                                 (User.password userInfo)
            then
              match Jwt.sign userInfo User.Stored (ACCESS_TOKEN_SECRET e)
                             Jwt.expiresIn_1h (clock e 0) with
              | Throw _ => (s, InternalServerError)
              | Return accessToken =>
                  (s, login_ok (toString (email (body req))) accessToken)
              end
            else (s, InvalidCredentials)
        end
    end.
Proof.
  unfold login.
  destruct (negb (isEmpty (login_errors (body req)))); [reflexivity|].
  destruct (negb (truthy (email (body req)))); [reflexivity|].
  destruct (negb (truthy (password (body req)))); [reflexivity|].
  run_handler.
  decide_on (fault e 0%nat); [reflexivity|].
  decide_on (User.findOne_email (toString (email (body req))) (users s))
    as [userInfo|]; [|reflexivity].
  decide_on (String.eqb (User.email userInfo) (toString (email (body req)))
             && bcrypt_compare (toString (password (body req)))
                               (User.password userInfo)); [|reflexivity].
  decide_on (Jwt.sign userInfo User.Stored (ACCESS_TOKEN_SECRET e)
                      Jwt.expiresIn_1h (clock e 0)); reflexivity.
Qed.

End Registration.

(** ** Tokens *)

Section Tokens.
Context `{Jwt.Jws}.

Lemma sign_with_secret (u : User.t) (o : User.key_order) (key : string)
      (now : Z) :
  key <> "" ->
  Jwt.sign u o (Some key) Jwt.expiresIn_1h now
  = Return (token_for key u o now).
Proof.
  intros Hkey. unfold Jwt.sign.
  destruct (String.eqb key "") eqn:Heq.
  - apply String.eqb_eq in Heq. contradiction.
  - reflexivity.
Qed.

Lemma sign_without_secret (u : User.t) (o : User.key_order)
      (secret : option string) (now : Z) :
  secret = None \/ secret = Some "" ->
  Jwt.sign u o secret Jwt.expiresIn_1h now = Throw JwtSecretMissing.
Proof. intros [-> | ->]; reflexivity. Qed.

(** Signing is injective in the payload: a token decodes to one payload. *)
Lemma jws_sign_injective (key : string) (p q : Jwt.payload) :
  Jwt.jws_sign key p = Jwt.jws_sign key q -> p = q.
Proof.
  intros Heq.
  assert (Hv : Jwt.jws_verify key (Jwt.jws_sign key p) = Some q)
    by (rewrite Heq; apply Jwt.jws_verify_sign).
  rewrite Jwt.jws_verify_sign in Hv. congruence.
Qed.

Lemma token_for_eq (key : string) (u v : User.t) (o o' : User.key_order)
      (now now' : Z) :
  token_for key u o now = token_for key v o' now' <->
  u = v /\ o = o' /\ now / 1000 = now' / 1000.
Proof.
  unfold token_for. split.
  - intros Heq. apply jws_sign_injective in Heq.
    injection Heq as Hu Ho Hiat _. repeat split; assumption.
  - intros [-> [-> ->]]. reflexivity.
Qed.

(** Signing keeps the payload readable: two tokens of different
    payloads differ, whatever keys signed them. *)
Lemma jws_sign_payload (key key' : string) (p q : Jwt.payload) :
  Jwt.jws_sign key p = Jwt.jws_sign key' q -> p = q.
Proof.
  intros Heq.
  assert (Hd : Jwt.jws_decode (Jwt.jws_sign key p) = Some q)
    by (rewrite Heq; apply Jwt.jws_decode_sign).
  rewrite Jwt.jws_decode_sign in Hd. congruence.
Qed.

(** A token signed over a constructed document is never one signed over
    a stored document. *)
Lemma constructed_and_stored_tokens_differ
      (key key' : string) (u v : User.t) (now now' : Z) :
  token_for key u User.Constructed now <> token_for key' v User.Stored now'.
Proof.
  unfold token_for. intros Heq. apply jws_sign_payload in Heq. discriminate.
Qed.

(** The signed JSON text determines the payload: the account, the order
    of its keys and the two times. *)
Lemma serialised_injective (o o' : User.key_order) (u v : User.t) :
  User.serialised o u = User.serialised o' v -> o = o' /\ u = v.
Proof.
  destruct u, v, o, o'; cbn; intros Heq; try discriminate;
    injection Heq as -> -> -> -> ->; split; reflexivity.
Qed.

Lemma payload_toJSON_injective (p q : Jwt.payload) :
  Jwt.toJSON p = Jwt.toJSON q -> p = q.
Proof.
  destruct p as [u o i x], q as [v o' i' x'].
  unfold Jwt.toJSON. cbn. intros Heq.
  injection Heq as Hu -> ->.
  apply serialised_injective in Hu. destruct Hu as [-> ->]. reflexivity.
Qed.

(** An issued token verifies, until its expiry. *)
Lemma validate_token_for (key : string) (u : User.t) (o : User.key_order)
      (now now' : Z) :
  ValidateToken key now' (token_for key u o now)
  = if now / 1000 + Jwt.expiresIn_1h <=? now' / 1000
    then inl ExpiredToken
    else inr {| Jwt.user := u;
                Jwt.keys := o;
                Jwt.iat := now / 1000;
                Jwt.exp := now / 1000 + Jwt.expiresIn_1h |}.
Proof.
  unfold ValidateToken, token_for. rewrite Jwt.jws_verify_sign. reflexivity.
Qed.

End Tokens.

(** ** Registration, then login *)

Lemma find_app_fresh {A} (f : A -> bool) (l : list A) (x : A) :
  find f l = None -> f x = true -> find f (l ++ [x]) = Some x.
Proof.
  intros Hnone Hx. induction l as [|y l IH]; simpl in *.
  - rewrite Hx. reflexivity.
  - destruct (f y); [discriminate | apply IH; assumption].
Qed.

Lemma insert_fresh_id (u : User.t) (coll : list User.t) :
  (forall v, In v coll -> User._id v <> User._id u) ->
  User.insert u coll = Return (coll ++ [u]).
Proof.
  intros Hfresh. unfold User.insert.
  destruct (existsb _ coll) eqn:Hex; [|reflexivity].
  apply existsb_exists in Hex. destruct Hex as [v [Hin Heq]].
  apply String.eqb_eq in Heq. exfalso. exact (Hfresh v Hin Heq).
Qed.

Section RegisterThenLogin.
Context `{Validator} `{Bcrypt} `{Jwt.Jws}.

Variables (e : env) (req : request) (s : db) (key : string).

Hypothesis validated : create_account_errors (body req) = [].
Hypothesis fresh_email :
  forall u, In u (users s) -> User.email u <> toString (email (body req)).
Hypothesis lookup_answers : fault e 0%nat = None.
Hypothesis insert_answers : fault e 1%nat = None.
Hypothesis fresh_id :
  forall u, In u (users s) -> User._id u <> new_ObjectId e.
Hypothesis secret_set : ACCESS_TOKEN_SECRET e = Some key.
Hypothesis secret_nonempty : key <> "".

Lemma registration_succeeds :
  create_account e req s
  = (registered_db e req s,
     registration_ok (registered_user e req)
                     (token_for key (registered_user e req)
                                User.Constructed (clock e 1))).
Proof.
  rewrite create_account_cases, validated. cbn [isEmpty negb].
  rewrite lookup_answers.
  rewrite (proj2 (findOne_email_none _ _) fresh_email).
  rewrite insert_answers, (insert_fresh_id (registered_user e req) _ fresh_id).
  rewrite secret_set, (sign_with_secret _ _ _ _ secret_nonempty).
  reflexivity.
Qed.

(** The stored password is the 60-character hash; the raw password has
    at most 25 characters. *)
Lemma stored_password_is_not_raw :
  User.password (registered_user e req) <> toString (password (body req)).
Proof.
  intros Heq.
  destruct (create_account_validated _ validated) as (_ & _ & _ & _ & Hmax).
  assert (Hlen : String.length (User.password (registered_user e req)) = 60%nat)
    by apply bcrypt_hash_length.
  rewrite Heq in Hlen. lia.
Qed.

Variables (e' : env) (req' : request) (key' : string).

Hypothesis same_email : email (body req') = email (body req).
Hypothesis same_password : password (body req') = password (body req).
Hypothesis login_lookup_answers : fault e' 0%nat = None.
Hypothesis login_secret_set : ACCESS_TOKEN_SECRET e' = Some key'.
Hypothesis login_secret_nonempty : key' <> "".

Lemma login_after_registration_succeeds :
  login e' req' (registered_db e req s)
  = (registered_db e req s,
     login_ok (toString (email (body req)))
              (token_for key' (registered_user e req)
                         User.Stored (clock e' 0))).
Proof.
  destruct (login_accepts_registered _ _ validated same_email same_password)
    as (Herrs & Hmail & Hpw).
  rewrite login_cases, Herrs, Hmail, Hpw. cbn [isEmpty negb].
  rewrite login_lookup_answers, same_email, same_password.
  unfold registered_db at 1. cbn [users].
  unfold User.findOne_email.
  rewrite (find_app_fresh _ _ (registered_user e req)).
  - cbn [registered_user User.email User.password].
    rewrite String.eqb_refl, bcrypt_compare_hash. cbn [andb].
    rewrite login_secret_set,
      (sign_with_secret _ _ _ _ login_secret_nonempty).
    reflexivity.
  - apply findOne_email_none. exact fresh_email.
  - apply String.eqb_refl.
Qed.


(** C4: a registration with a fresh email and validated input succeeds
    (the database answering, the secret configured); the password
    stored in the new account is not the raw password; a login with the
    same email and raw password then succeeds. *)
Theorem register_fresh_then_login :
  create_account e req s
  = (registered_db e req s,
     registration_ok (registered_user e req)
                     (token_for key (registered_user e req)
                                User.Constructed (clock e 1)))
  /\ users (registered_db e req s) = users s ++ [registered_user e req]
  /\ User.email (registered_user e req) = toString (email (body req))
  /\ User.password (registered_user e req) <> toString (password (body req))
  /\ login e' req' (registered_db e req s)
     = (registered_db e req s,
        login_ok (toString (email (body req)))
                 (token_for key' (registered_user e req)
                            User.Stored (clock e' 0))).
Proof.
  split; [exact registration_succeeds|].
  split; [reflexivity|].
  split; [reflexivity|].
  split; [exact stored_password_is_not_raw|].
  exact login_after_registration_succeeds.
Qed.

(** C1 (the code departs from it): the body of a successful
    registration carries the saved document, and with it the stored
    password hash, in its [user] field, outside the token. *)
Theorem registration_response_exposes_hash :
  let hash := bcrypt_hash (toString (password (body req))) 10 (salt e) in
  let r := snd (create_account e req s) in
  status r = 200
  /\ In hash (map User.password (users (fst (create_account e req s))))
  /\ exists j u,
      sent r = Some j
      /\ get "user" j = Some u
      /\ get "password" u = Some (JStr hash)
      /\ mem_string hash (strings_outside "accessToken" j) = true.
Proof.
  cbv zeta. rewrite registration_succeeds. cbn [fst snd].
  split; [reflexivity|]. split.
  - unfold registered_db. cbn [users]. rewrite map_app. apply in_or_app.
    right. left. reflexivity.
  - eexists. eexists.
    split; [reflexivity|]. split; [reflexivity|]. split; [reflexivity|].
    unfold mem_string. apply existsb_exists.
    exists (bcrypt_hash (toString (password (body req))) 10 (salt e)).
    split; [|apply String.eqb_refl].
    cbn. right. right. left. reflexivity.
Qed.

(** C9: the successful login after the registration returns a token,
    and it is not the token the registration returned, whatever the
    clock readings and the secrets of the two requests: the
    registration signs the document it has just constructed, the login
    the document it has read back, and the two list the account's keys
    in different orders. *)
Theorem login_token_is_fresh :
  exists tok tok',
    accessToken_of (snd (create_account e req s)) = Some tok
    /\ accessToken_of (snd (login e' req' (registered_db e req s))) = Some tok'
    /\ tok <> tok'.
Proof.
  exists (token_for key (registered_user e req) User.Constructed (clock e 1)).
  exists (token_for key' (registered_user e req) User.Stored (clock e' 0)).
  rewrite registration_succeeds, login_after_registration_succeeds.
  split; [reflexivity|]. split; [reflexivity|].
  apply constructed_and_stored_tokens_differ.
Qed.

End RegisterThenLogin.

(** ** Registration with a used email, and failures of the database *)

Section Register.
Context `{Validator} `{Bcrypt} `{Jwt.Jws}.

(** [/create-account] changes the collections only by appending the
    new account, and only after its lookup found no account with the
    email. *)
Lemma create_account_store (e : env) (req : request) (s : db) :
  fst (create_account e req s) = s
  \/ (User.findOne_email (toString (email (body req))) (users s) = None
      /\ fst (create_account e req s)
         = {| users := users s ++ [registered_user e req]; notes := notes s |}).
Proof.
  rewrite create_account_cases.
  destruct (negb _); [left; reflexivity|].
  destruct (fault e 0%nat); [left; reflexivity|].
  destruct (User.findOne_email _ (users s)) eqn:Hfind; [left; reflexivity|].
  destruct (fault e 1%nat); [left; reflexivity|].
  destruct (User.insert _ (users s)) as [coll|] eqn:Hins; [|left; reflexivity].
  unfold User.insert in Hins.
  destruct (existsb _ (users s)); [discriminate|].
  injection Hins as <-.
  right. split; [reflexivity|].
  cbv zeta. destruct (Jwt.sign _ _ _ _ _); reflexivity.
Qed.

(** C2: a registration whose email already has an account leaves the
    collections as they were, and (validated, the lookup answering) is
    refused with the DuplicateAccount error. *)
Theorem register_existing_email (e : env) (req : request) (s : db) (u : User.t) :
  In u (users s) ->
  User.email u = toString (email (body req)) ->
  fst (create_account e req s) = s
  /\ (create_account_errors (body req) = [] ->
      fault e 0%nat = None ->
      snd (create_account e req s) = DuplicateAccount).
Proof.
  intros Hin Hmail.
  destruct (findOne_email_some _ _ _ Hin Hmail) as [v Hfound].
  split.
  - destruct (create_account_store e req s) as [Hsame | [Hnone _]];
      [exact Hsame | congruence].
  - intros Hval Hup.
    rewrite create_account_cases, Hval, Hup, Hfound. reflexivity.
Qed.

Lemma NoDup_snoc {A} (l : list A) (x : A) :
  NoDup l -> ~ In x l -> NoDup (l ++ [x]).
Proof.
  intros Hl Hx. apply NoDup_app.
  - exact Hl.
  - constructor; [intros [] | constructor].
  - intros a Ha [<- | []]. exact (Hx Ha).
Qed.

(** A registration that is served alone, no other request between its
    lookup and its insert, keeps the emails of the collection distinct;
    and a failure of either call to the database, a duplicate-key
    failure included, is answered with the generic internal error, the
    collections unchanged. *)
Theorem register_unique_by_lookup (e : env) (req : request) (s : db) :
  NoDup (map User.email (users s)) ->
  NoDup (map User.email (users (fst (create_account e req s))))
  /\ forall err,
      create_account_errors (body req) = [] ->
      fault e 0%nat = Some err
      \/ (fault e 0%nat = None
          /\ User.findOne_email (toString (email (body req))) (users s) = None
          /\ (fault e 1%nat = Some err
              \/ User.insert (registered_user e req) (users s) = Throw err)) ->
      create_account e req s = (s, InternalServerError).
Proof.
  intros Hunique. split.
  - destruct (create_account_store e req s) as [-> | [Hnone ->]];
      [exact Hunique|].
    cbn [users]. rewrite map_app. apply NoDup_snoc; [exact Hunique|].
    intros Hin. apply in_map_iff in Hin. destruct Hin as [v [Hmail Hin]].
    exact (proj1 (findOne_email_none _ _) Hnone v Hin Hmail).
  - intros err Hval Hfail. rewrite create_account_cases, Hval.
    cbn [isEmpty negb].
    destruct Hfail as [-> | (-> & -> & [-> | Hins])]; [reflexivity ..|].
    rewrite Hins. destruct (fault e 1%nat); reflexivity.
Qed.

(** Served alone, the handler resumes on the collection its lookup
    has read. *)
Lemma create_account_at_awaits (e : env) (req : request) (s : db) :
  create_account e req s
  = create_account_resume e req (create_account_lookup e req s) s.
Proof.
  unfold create_account, create_account_resume, create_account_lookup,
    create_account_save.
  destruct (negb (isEmpty (create_account_errors (body req)))); [reflexivity|].
  run_handler.
  destruct (fault e 0%nat); cbv beta iota; [reflexivity|].
  destruct (User.findOne_email _ _); reflexivity.
Qed.

Lemma create_account_lookup_fresh (e : env) (req : request) (s : db) :
  create_account_errors (body req) = [] ->
  fault e 0%nat = None ->
  (forall u, In u (users s) -> User.email u <> toString (email (body req))) ->
  create_account_lookup e req s = None.
Proof.
  intros Hval Hup Hfresh. unfold create_account_lookup.
  rewrite Hval. cbn [isEmpty negb]. run_handler. rewrite Hup. cbv beta iota.
  rewrite (proj2 (findOne_email_none _ _) Hfresh). reflexivity.
Qed.

(** What [create_account_save] does, by the answer of the insert. *)
Lemma create_account_save_cases (e : env) (req : request) (s : db) :
  create_account_save e req s =
  match fault e 1%nat with
  | Some _ => (s, InternalServerError)
  | None =>
      match User.insert (registered_user e req) (users s) with
      | Throw _ => (s, InternalServerError)
      | Return coll =>
          let s' := {| users := coll; notes := notes s |} in
          match Jwt.sign (registered_user e req) User.Constructed
                         (ACCESS_TOKEN_SECRET e)
                         Jwt.expiresIn_1h (clock e 1) with
          | Throw _ => (s', InternalServerError)
          | Return accessToken =>
              (s', registration_ok (registered_user e req) accessToken)
          end
      end
  end.
Proof.
  unfold create_account_save. fold (registered_user e req).
  run_handler.
  decide_on (fault e 1%nat); [reflexivity|].
  decide_on (User.insert (registered_user e req) (users s)); [|reflexivity].
  decide_on (Jwt.sign (registered_user e req) User.Constructed
                      (ACCESS_TOKEN_SECRET e)
                      Jwt.expiresIn_1h (clock e 1)); reflexivity.
Qed.

(** C3 (the code departs from it): nothing at the store keeps emails
    unique, and a duplicate-key failure is not answered with
    DuplicateAccount.  Of two validated registrations with one fresh
    email, the second looked up before the first has saved: when the
    store answers both inserts, both are answered 200 and the
    collection holds two accounts with that email; when the store
    fails the second insert with a duplicate key, as a unique index
    would, the second is answered with the generic internal error. *)
Theorem concurrent_registrations_share_an_email
        (e1 : env) (req1 : request) (e2 : env) (req2 : request) (s : db)
        (key1 key2 : string) :
  create_account_errors (body req1) = [] ->
  create_account_errors (body req2) = [] ->
  toString (email (body req2)) = toString (email (body req1)) ->
  (forall u, In u (users s) -> User.email u <> toString (email (body req1))) ->
  fault e1 0%nat = None -> fault e1 1%nat = None -> fault e2 0%nat = None ->
  (forall u, In u (users s) -> User._id u <> new_ObjectId e1) ->
  (forall u, In u (users s) -> User._id u <> new_ObjectId e2) ->
  new_ObjectId e1 <> new_ObjectId e2 ->
  ACCESS_TOKEN_SECRET e1 = Some key1 -> key1 <> "" ->
  ACCESS_TOKEN_SECRET e2 = Some key2 -> key2 <> "" ->
  let u1 := registered_user e1 req1 in
  let u2 := registered_user e2 req2 in
  let run := register_concurrently e1 req1 e2 req2 s in
  (fault e2 1%nat = None ->
   users (fst run) = users s ++ [u1; u2]
   /\ User.email u1 = User.email u2
   /\ ~ NoDup (map User.email (users (fst run)))
   /\ status (fst (snd run)) = 200
   /\ status (snd (snd run)) = 200)
  /\ (fault e2 1%nat = Some MongoDuplicateKey ->
      users (fst run) = users s ++ [u1]
      /\ status (fst (snd run)) = 200
      /\ snd (snd run) = InternalServerError
      /\ snd (snd run) <> DuplicateAccount).
Proof.
  intros Hval1 Hval2 Hmail Hfresh Hup1 Hins1 Hup2 Hid1 Hid2 Hids
         Hkey1 Hne1 Hkey2 Hne2 u1 u2 run.
  assert (Hfresh2 : forall u, In u (users s) ->
                              User.email u <> toString (email (body req2)))
    by (rewrite Hmail; exact Hfresh).
  assert (Hfirst : create_account_save e1 req1 s
                   = (registered_db e1 req1 s,
                      registration_ok u1 (token_for key1 u1 User.Constructed
                                                    (clock e1 1)))).
  { rewrite create_account_save_cases, Hins1.
    rewrite (insert_fresh_id (registered_user e1 req1) _ Hid1).
    rewrite Hkey1, (sign_with_secret _ _ _ _ Hne1). reflexivity. }
  assert (Hrun : run = (let (s2, r2) :=
                          create_account_save e2 req2 (registered_db e1 req1 s)
                        in (s2, (registration_ok
                                   u1 (token_for key1 u1 User.Constructed
                                                 (clock e1 1)), r2)))).
  { unfold run, register_concurrently.
    rewrite (create_account_lookup_fresh _ _ _ Hval1 Hup1 Hfresh).
    rewrite (create_account_lookup_fresh _ _ _ Hval2 Hup2 Hfresh2).
    cbn [create_account_resume]. rewrite Hfirst. reflexivity. }
  split.
  - intros Hins2. rewrite Hrun, create_account_save_cases, Hins2.
    rewrite (insert_fresh_id (registered_user e2 req2)).
    + rewrite Hkey2, (sign_with_secret _ _ _ _ Hne2).
      cbn [fst snd users registered_db].
      rewrite <- app_assoc. cbn [app].
      split; [reflexivity|].
      split; [cbn [u1 u2 registered_user User.email]; congruence|].
      split; [|split; reflexivity].
      rewrite map_app. cbn [map u1 u2 registered_user User.email].
      rewrite Hmail. intros Hdup.
      apply NoDup_remove_2 in Hdup. apply Hdup.
      apply in_or_app. right. left. reflexivity.
    + unfold registered_db. cbn [users]. intros u Hin.
      apply in_app_or in Hin. destruct Hin as [Hin | [<- | []]].
      * exact (Hid2 u Hin).
      * exact Hids.
  - intros Hins2. rewrite Hrun, create_account_save_cases, Hins2.
    cbn [fst snd users registered_db].
    split; [reflexivity|]. split; [reflexivity|]. split; [reflexivity|].
    discriminate.
Qed.

End Register.

(** ** The account behind a token *)

Section GetUser.
Context `{Driver}.

(** [/get-user] as the sequence of decisions it takes. *)
Lemma get_user_cases (e : env) (req : request) (s : db) :
  get_user e req s =
  (s,
   match castObjectId (User._id (Jwt.user (user req))) with
   | None => res_json 500 (error_body "An error occurred while retrieving user data.")
   | Some oid =>
       match fault e 0%nat with
       | Some _ =>
           res_json 500 (error_body "An error occurred while retrieving user data.")
       | None =>
           match User.findOne_id oid (users s) with
           | None => res_status 401
           | Some isUser => user_ok isUser
           end
       end
   end).
Proof.
  unfold get_user. run_handler.
  decide_on (castObjectId (User._id (Jwt.user (user req)))) as [oid|];
    [|reflexivity].
  decide_on (fault e 0%nat); [reflexivity|].
  decide_on (User.findOne_id oid (users s)); reflexivity.
Qed.

(** C5 (the code departs from it): when the account of the token is not
    in the collection, [/get-user] sets the status 401 and writes no
    body: the caller gets no error object. *)
Theorem get_user_unknown_account_sends_nothing
        (e : env) (req : request) (s : db) (oid : string) :
  castObjectId (User._id (Jwt.user (user req))) = Some oid ->
  fault e 0%nat = None ->
  (forall u, In u (users s) -> User._id u <> oid) ->
  get_user e req s = (s, res_status 401)
  /\ sent (snd (get_user e req s)) = None
  /\ explicit_error (snd (get_user e req s)) = false.
Proof.
  intros Hcast Hup Hunknown.
  assert (Hrun : get_user e req s = (s, res_status 401)).
  { rewrite get_user_cases, Hcast, Hup.
    destruct (User.findOne_id oid (users s)) as [u|] eqn:Hfind; [|reflexivity].
    apply find_some in Hfind. destruct Hfind as [Hin Heq].
    apply String.eqb_eq in Heq. exfalso. exact (Hunknown u Hin Heq). }
  rewrite Hrun. repeat split.
Qed.

End GetUser.

(** ** Issuing and validating tokens *)

Section TokenLifetime.
Context `{Jwt.Jws}.

(** C7: a token validated at the time it was issued, with the secret
    it was signed with, yields the account it was issued for. *)
Theorem validate_issued_token
        (account : User.t) (o : User.key_order) (key : string) (now : Z) :
  key <> "" ->
  exists tok p,
    Jwt.sign account o (Some key) Jwt.expiresIn_1h now = Return tok
    /\ ValidateToken key now tok = inr p
    /\ Jwt.user p = account
    /\ identity p = User._id account.
Proof.
  intros Hkey.
  exists (token_for key account o now).
  eexists.
  split; [apply sign_with_secret; exact Hkey|].
  rewrite validate_token_for.
  assert (Hlive : (now / 1000 + Jwt.expiresIn_1h <=? now / 1000) = false)
    by (apply Z.leb_gt; unfold Jwt.expiresIn_1h; lia).
  rewrite Hlive. repeat split.
Qed.

(** C8, amended: an issued token expires 3600 seconds after its
    issuance second, and validated 61 minutes after issuance it fails
    with ExpiredToken; a token whose signature does not verify fails
    with InvalidToken, at any time. *)
Theorem issued_token_expires_after_an_hour
        (account : User.t) (o : User.key_order) (key : string) (now : Z) :
  key <> "" ->
  exists tok,
    Jwt.sign account o (Some key) Jwt.expiresIn_1h now = Return tok
    /\ (exists p, Jwt.jws_verify key tok = Some p
                  /\ Jwt.iat p = now / 1000
                  /\ Jwt.exp p = Jwt.iat p + 3600)
    /\ ValidateToken key (now + 61 * 60 * 1000) tok = inl ExpiredToken
    /\ forall other now',
        Jwt.jws_verify key other = None ->
        ValidateToken key now' other = inl InvalidToken.
Proof.
  intros Hkey.
  exists (token_for key account o now).
  split; [apply sign_with_secret; exact Hkey|].
  split.
  - eexists. split; [apply Jwt.jws_verify_sign|]. split; reflexivity.
  - split.
    + rewrite validate_token_for.
      replace (now + 61 * 60 * 1000) with (now + 3660 * 1000) by lia.
      rewrite Z.div_add by lia.
      assert (Hpast : (now / 1000 + Jwt.expiresIn_1h <=? now / 1000 + 3660) = true)
        by (apply Z.leb_le; unfold Jwt.expiresIn_1h; lia).
      rewrite Hpast. reflexivity.
    + intros other now' Hbad. unfold ValidateToken. rewrite Hbad. reflexivity.
Qed.

End TokenLifetime.

(** ** Notes *)

Lemma by_owner_eq (uid : string) (n : Note.t) :
  Note.by_owner uid n = true <-> Note.userId n = uid.
Proof. unfold Note.by_owner. apply String.eqb_eq. Qed.

Lemma findOne_by_id_and_owner (oid uid : string) (coll : list Note.t) (n : Note.t) :
  Note.findOne (Note.by_id_and_owner oid uid) coll = Some n ->
  In n coll /\ Note._id n = oid /\ Note.userId n = uid.
Proof.
  intros Hfind. apply find_some in Hfind. destruct Hfind as [Hin Hmatch].
  unfold Note.by_id_and_owner in Hmatch. apply andb_prop in Hmatch.
  destruct Hmatch as [Hid Howner].
  apply String.eqb_eq in Hid. apply String.eqb_eq in Howner. auto.
Qed.

Lemma others_snoc_own (uid : string) (coll : list Note.t) (n : Note.t) :
  Note.userId n = uid -> others uid (coll ++ [n]) = others uid coll.
Proof.
  intros Hown. unfold others. rewrite filter_app. simpl.
  rewrite (proj2 (by_owner_eq uid n) Hown). simpl. apply app_nil_r.
Qed.

Lemma others_deleteOne (oid uid : string) (coll : list Note.t) :
  others uid (Note.deleteOne (Note.by_id_and_owner oid uid) coll)
  = others uid coll.
Proof.
  induction coll as [|m rest IH]; simpl; [reflexivity|].
  destruct (Note.by_id_and_owner oid uid m) eqn:Hmatch.
  - unfold Note.by_id_and_owner in Hmatch. apply andb_prop in Hmatch.
    destruct Hmatch as [_ Howner]. unfold Note.by_owner. rewrite Howner.
    reflexivity.
  - simpl. rewrite IH. reflexivity.
Qed.

(** When every document with the id of [n] is owned by [uid], as [n] is,
    saving [n] leaves the notes of the other owners alone. *)
Lemma others_replace (uid : string) (n : Note.t) (coll : list Note.t) :
  Note.userId n = uid ->
  (forall m, In m coll -> Note._id m = Note._id n -> Note.userId m = uid) ->
  others uid (Note.replace n coll) = others uid coll.
Proof.
  intros Hown. induction coll as [|m rest IH]; intros Hids; simpl;
    [reflexivity|].
  destruct (String.eqb (Note._id m) (Note._id n)) eqn:Hid.
  - apply String.eqb_eq in Hid.
    assert (Hm : Note.userId m = uid) by (apply Hids; [left; reflexivity | exact Hid]).
    simpl. rewrite (proj2 (by_owner_eq uid n) Hown), (proj2 (by_owner_eq uid m) Hm).
    reflexivity.
  - simpl. rewrite IH; [reflexivity|].
    intros m' Hin. apply Hids. right. exact Hin.
Qed.

(** With unique ids, the document found is the only one with its id. *)
Lemma unique_id_owner (coll : list Note.t) (n m : Note.t) :
  NoDup (map Note._id coll) ->
  In n coll -> In m coll -> Note._id m = Note._id n -> m = n.
Proof.
  induction coll as [|x rest IH]; intros Hnodup Hn Hm Hid; [contradiction|].
  simpl in Hnodup. inversion Hnodup as [|? ? Hfresh Hrest]; subst.
  destruct Hn as [<- | Hn], Hm as [<- | Hm].
  - reflexivity.
  - exfalso. apply Hfresh. rewrite <- Hid. apply in_map. exact Hm.
  - exfalso. apply Hfresh. rewrite Hid. apply in_map. exact Hn.
  - apply IH; assumption.
Qed.

Lemma replace_ids (n : Note.t) (coll : list Note.t) :
  map Note._id (Note.replace n coll) = map Note._id coll.
Proof.
  induction coll as [|m rest IH]; simpl; [reflexivity|].
  destruct (String.eqb (Note._id m) (Note._id n)) eqn:Hid; simpl.
  - apply String.eqb_eq in Hid. rewrite Hid. reflexivity.
  - rewrite IH. reflexivity.
Qed.

Lemma deleteOne_incl (f : Note.t -> bool) (coll : list Note.t) (n : Note.t) :
  In n (Note.deleteOne f coll) -> In n coll.
Proof.
  induction coll as [|m rest IH]; simpl; [trivial|].
  destruct (f m); simpl; intuition.
Qed.

Lemma deleteOne_ids_unique (f : Note.t -> bool) (coll : list Note.t) :
  NoDup (map Note._id coll) -> NoDup (map Note._id (Note.deleteOne f coll)).
Proof.
  induction coll as [|m rest IH]; simpl; intros Hnodup; [constructor|].
  inversion Hnodup as [|? ? Hfresh Hrest]; subst.
  destruct (f m); [exact Hrest|].
  simpl. constructor; [|apply IH; exact Hrest].
  intros Hin. apply Hfresh. apply in_map_iff in Hin.
  destruct Hin as [x [Hid Hx]]. rewrite <- Hid. apply in_map.
  apply (deleteOne_incl f). exact Hx.
Qed.

(** *** The note handlers as sequences of decisions *)

Section NoteHandlers.
Context `{Driver}.

Variables (e : env) (req : request) (s : db).

Lemma add_notes_cases :
  add_notes e req s =
  if negb (isEmpty (note_errors (body req)))
  then (s, validation_error (note_errors (body req)))
  else if negb (truthy (title (body req)))
  then (s, res_json 400 (error_body "Title is required"))
  else if negb (truthy (content (body req)))
  then (s, res_json 400 (error_body "Content is required"))
  else
    match fault e 0%nat with
    | Some _ => (s, InternalServerError)
    | None =>
        match Note.insert (new_note e req) (notes s) with
        | Throw _ => (s, InternalServerError)
        | Return coll =>
            (with_notes s coll, note_ok 201 (new_note e req) "New note has been created")
        end
    end.
Proof.
  unfold add_notes. fold (caller req). fold (new_note e req).
  destruct (negb (isEmpty (note_errors (body req)))); [reflexivity|].
  destruct (negb (truthy (title (body req)))); [reflexivity|].
  destruct (negb (truthy (content (body req)))); [reflexivity|].
  run_handler.
  decide_on (fault e 0%nat); [reflexivity|].
  decide_on (Note.insert (new_note e req) (notes s)); reflexivity.
Qed.

Lemma edit_notes_cases :
  edit_notes e req s =
  if negb (isEmpty (note_errors (body req)))
  then (s, validation_error (note_errors (body req)))
  else if negb (truthy (title (body req))) && negb (truthy (content (body req)))
          && negb (defined (tags (body req)))
  then (s, res_json 400 (error_body "No Changes Provided"))
  else
    match castObjectId (noteId req) with
    | None => (s, res_json 500 (error_body "Internal server error"))
    | Some oid =>
        match fault e 0%nat with
        | Some _ => (s, res_json 500 (error_body "Internal server error"))
        | None =>
            match Note.findOne (Note.by_id_and_owner oid (caller req)) (notes s) with
            | None => (s, res_json 400 (error_body "Notes not found"))
            | Some note =>
                match fault e 1%nat with
                | Some _ => (s, res_json 500 (error_body "Internal server error"))
                | None =>
                    match Note.update (apply_edit (body req) note) (notes s) with
                    | Throw _ =>
                        (s, res_json 500 (error_body "Internal server error"))
                    | Return coll =>
                        (with_notes s coll,
                         note_ok 200 (apply_edit (body req) note)
                                 "Note has been updated")
                    end
                end
            end
        end
    end.
Proof.
  unfold edit_notes. fold (caller req).
  destruct (negb (isEmpty (note_errors (body req)))); [reflexivity|].
  destruct (negb (truthy (title (body req))) && negb (truthy (content (body req)))
            && negb (defined (tags (body req)))); [reflexivity|].
  run_handler.
  decide_on (castObjectId (noteId req)) as [oid|]; [|reflexivity].
  decide_on (fault e 0%nat); [reflexivity|].
  decide_on (Note.findOne (Note.by_id_and_owner oid (caller req)) (notes s))
    as [note|]; [|reflexivity].
  decide_on (fault e 1%nat); [reflexivity|].
  decide_on (Note.update (apply_edit (body req) note) (notes s)); reflexivity.
Qed.

Lemma get_all_notes_cases :
  get_all_notes e req s =
  match fault e 0%nat with
  | Some _ => (s, res_json 500 (error_body "Internal server error"))
  | None =>
      (s, notes_ok (Note.sort_isPinned_desc
                      (Note.find (Note.by_owner (caller req)) (notes s)))
                   "All notes retrieved successfully")
  end.
Proof.
  unfold get_all_notes. fold (caller req). run_handler.
  decide_on (fault e 0%nat); reflexivity.
Qed.

Lemma delete_note_cases :
  delete_note e req s =
  match castObjectId (noteId req) with
  | None => (s, res_json 400 (error_body "Note not found"))
  | Some oid =>
      match fault e 0%nat with
      | Some _ => (s, res_json 400 (error_body "Note not found"))
      | None =>
          match Note.findOne (Note.by_id_and_owner oid (caller req)) (notes s) with
          | None => (s, res_json 400 (error_body "Note not found"))
          | Some _ =>
              match fault e 1%nat with
              | Some _ => (s, res_json 400 (error_body "Note not found"))
              | None =>
                  (with_notes s
                     (Note.deleteOne (Note.by_id_and_owner oid (caller req))
                                     (notes s)),
                   res_json 200
                     (JObj [("error", JBool false);
                            ("message", JStr "Note deleted successfully")]))
              end
          end
      end
  end.
Proof.
  unfold delete_note. fold (caller req). run_handler.
  decide_on (castObjectId (noteId req)) as [oid|]; [|reflexivity].
  decide_on (fault e 0%nat); [reflexivity|].
  decide_on (Note.findOne (Note.by_id_and_owner oid (caller req)) (notes s));
    [|reflexivity].
  decide_on (fault e 1%nat); reflexivity.
Qed.

Lemma update_note_ispinned_cases :
  update_note_ispinned e req s =
  match isPinned (body req) with
  | None => (s, res_json 400 (error_body "No changes provided"))
  | Some b =>
      match castObjectId (noteId req) with
      | None => (s, res_json 500 (error_body "Internal server error"))
      | Some oid =>
          match fault e 0%nat with
          | Some _ => (s, res_json 500 (error_body "Internal server error"))
          | None =>
              match Note.findOne (Note.by_id_and_owner oid (caller req))
                                 (notes s) with
              | None => (s, res_json 404 (error_body "Note not found"))
              | Some note =>
                  match fault e 1%nat with
                  | Some _ =>
                      (s, res_json 500 (error_body "Internal server error"))
                  | None =>
                      match Note.update (set_isPinned b note) (notes s) with
                      | Throw _ =>
                          (s, res_json 500 (error_body "Internal server error"))
                      | Return coll =>
                          (with_notes s coll,
                           note_ok 200 (set_isPinned b note)
                                   "Note pinned change successfully")
                      end
                  end
              end
          end
      end
  end.
Proof.
  unfold update_note_ispinned. fold (caller req).
  destruct (isPinned (body req)) as [b|]; [|reflexivity].
  run_handler.
  decide_on (castObjectId (noteId req)) as [oid|]; [|reflexivity].
  decide_on (fault e 0%nat); [reflexivity|].
  decide_on (Note.findOne (Note.by_id_and_owner oid (caller req)) (notes s))
    as [note|]; [|reflexivity].
  decide_on (fault e 1%nat); [reflexivity|].
  decide_on (Note.update (set_isPinned b note) (notes s)); reflexivity.
Qed.

Lemma search_notes_cases :
  search_notes e req s =
  if negb (truthy (query req))
  then (s, res_json 400 (error_body "Search query is needed!"))
  else
    match RegExp_i (toString (query req)) with
    | None => (s, InternalServerError)
    | Some re =>
        match fault e 0%nat with
        | Some _ => (s, InternalServerError)
        | None =>
            (s, notes_ok
                  (Note.find (fun n => Note.by_owner (caller req) n
                                       && (re (Note.title n) || re (Note.content n)))
                             (notes s))
                  "Search notes successfully retrieved")
        end
    end.
Proof.
  unfold search_notes. fold (caller req).
  destruct (negb (truthy (query req))); [reflexivity|].
  run_handler.
  decide_on (RegExp_i (toString (query req))) as [re|]; [|reflexivity].
  decide_on (fault e 0%nat); reflexivity.
Qed.

End NoteHandlers.

(** *** The order of a listing *)

Lemma insert_sorted_perm (n : Note.t) (l : list Note.t) :
  Permutation (Note.insert_sorted n l) (n :: l).
Proof.
  induction l as [|m l IH]; simpl.
  - apply Permutation_refl.
  - destruct (Note.before n m).
    + apply Permutation_refl.
    + apply perm_trans with (m :: n :: l).
      * apply perm_skip. exact IH.
      * apply perm_swap.
Qed.

Lemma sort_isPinned_desc_perm (l : list Note.t) :
  Permutation (Note.sort_isPinned_desc l) l.
Proof.
  induction l as [|n l IH]; simpl.
  - apply perm_nil.
  - apply perm_trans with (n :: Note.sort_isPinned_desc l).
    + apply insert_sorted_perm.
    + apply perm_skip. exact IH.
Qed.

Lemma insert_sorted_unpinned (n : Note.t) (pinned unpinned : list Note.t) :
  Note.isPinned n = false ->
  Forall (fun m => Note.isPinned m = true) pinned ->
  Forall (fun m => Note.isPinned m = false) unpinned ->
  Note.insert_sorted n (pinned ++ unpinned) = pinned ++ n :: unpinned.
Proof.
  intros Hn Hpinned Hunpinned.
  induction Hpinned as [|p pinned Hp _ IH]; simpl.
  - destruct Hunpinned as [|u unpinned Hu _]; simpl; [reflexivity|].
    unfold Note.before. rewrite Hn, Hu. reflexivity.
  - unfold Note.before at 1. rewrite Hn, Hp. simpl. rewrite IH. reflexivity.
Qed.

Lemma insert_sorted_pinned (n : Note.t) (l : list Note.t) :
  Note.isPinned n = true -> Note.insert_sorted n l = n :: l.
Proof.
  intros Hn. destruct l as [|m l]; simpl; [reflexivity|].
  unfold Note.before. rewrite Hn. reflexivity.
Qed.

Lemma sort_isPinned_desc_pinned_first (l : list Note.t) :
  pinned_first (Note.sort_isPinned_desc l).
Proof.
  induction l as [|n l IH]; simpl.
  - exists [], []. repeat split; constructor.
  - destruct IH as (pinned & unpinned & -> & Hpinned & Hunpinned).
    destruct (Note.isPinned n) eqn:Hn.
    + exists (n :: pinned), unpinned.
      rewrite (insert_sorted_pinned _ _ Hn).
      repeat split; [constructor; assumption | assumption].
    + exists pinned, (n :: unpinned).
      rewrite (insert_sorted_unpinned _ _ _ Hn Hpinned Hunpinned).
      repeat split; [assumption | constructor; assumption].
Qed.

(** *** Ownership *)

Lemma toJSON_userId (n : Note.t) :
  get "userId" (Note.toJSON n) = Some (JStr (Note.userId n)).
Proof. reflexivity. Qed.

(** A value with no [userId] field is owned by anyone. *)
Lemma owned_without_owner (uid : string) (j : json) :
  get "userId" j = None -> owned_by uid j.
Proof. intros Hnone x Hx. congruence. Qed.

Ltac no_owner := apply owned_without_owner; reflexivity.

Lemma strings_owned (uid : string) (l : list string) :
  Forall (owned_by uid) (flat_map subvalues (map JStr l)).
Proof.
  induction l as [|t l IH]; cbn; [constructor|].
  constructor; [no_owner | exact IH].
Qed.

Lemma note_values_owned (uid : string) (n : Note.t) :
  Note.userId n = uid -> Forall (owned_by uid) (subvalues (Note.toJSON n)).
Proof.
  intros Hown. cbn.
  constructor.
  { intros x Hx. cbn in Hx. rewrite Hown in Hx. congruence. }
  do 3 (constructor; [no_owner|]).
  apply Forall_app. split; [apply strings_owned|].
  repeat (constructor; [no_owner|]). constructor.
Qed.

Lemma error_values_owned (uid : string) (code : Z) (message : string) :
  Forall (owned_by uid) (values_of (res_json code (error_body message))).
Proof. cbn. repeat (constructor; [no_owner|]). constructor. Qed.

Lemma validation_error_values_owned (uid : string) (errors : list verr) :
  Forall (owned_by uid) (values_of (validation_error errors)).
Proof.
  cbn. do 4 (constructor; [no_owner|]).
  rewrite app_nil_r.
  apply Forall_flat_map, Forall_map, Forall_forall. intros e _.
  unfold verr_toJSON. destruct (value e) as [|t|l]; cbn.
  - repeat (constructor; [no_owner|]). constructor.
  - repeat (constructor; [no_owner|]). constructor.
  - do 3 (constructor; [no_owner|]).
    apply Forall_app. split; [apply strings_owned|].
    repeat (constructor; [no_owner|]). constructor.
Qed.

Lemma note_ok_values_owned (uid : string) (code : Z) (n : Note.t)
      (message : string) :
  Note.userId n = uid ->
  Forall (owned_by uid) (values_of (note_ok code n message)).
Proof.
  intros Hown. unfold values_of, note_ok, res_json. cbn [sent].
  cbn [subvalues flat_map snd app].
  do 2 (constructor; [no_owner|]).
  apply Forall_app. split; [exact (note_values_owned uid n Hown)|].
  repeat (constructor; [no_owner|]). constructor.
Qed.

Lemma notes_ok_values_owned (uid : string) (l : list Note.t) (message : string) :
  (forall n, In n l -> Note.userId n = uid) ->
  Forall (owned_by uid) (values_of (notes_ok l message)).
Proof.
  intros Hown. unfold values_of, notes_ok, res_json. cbn [sent].
  cbn [subvalues flat_map snd app].
  do 3 (constructor; [no_owner|]).
  apply Forall_app. split.
  - apply Forall_flat_map, Forall_map, Forall_forall. intros n Hn.
    apply note_values_owned, Hown, Hn.
  - repeat (constructor; [no_owner|]). constructor.
Qed.

Lemma isolated_refused (uid : string) (s : db) (r : response) :
  Forall (owned_by uid) (values_of r) -> isolated uid s (s, r).
Proof. intros Howned. unfold isolated. cbn [fst snd]. auto. Qed.

Lemma isolated_listing (uid : string) (s : db) (l : list Note.t) (message : string) :
  (forall n, In n l -> Note.userId n = uid) ->
  isolated uid s (s, notes_ok l message).
Proof.
  intros Hown. apply isolated_refused, notes_ok_values_owned, Hown.
Qed.

Lemma isolated_saved (uid : string) (s : db) (coll : list Note.t)
      (code : Z) (n : Note.t) (message : string) :
  others uid coll = others uid (notes s) ->
  Note.userId n = uid ->
  isolated uid s (with_notes s coll, note_ok code n message).
Proof.
  intros Hothers Hown. unfold isolated. cbn [fst snd with_notes users notes].
  repeat split; [exact Hothers|]. apply note_ok_values_owned, Hown.
Qed.

Ltac refused :=
  apply isolated_refused;
  first [apply error_values_owned | apply validation_error_values_owned].

Section Ownership.
Context `{Driver}.

Variables (e : env) (req : request) (s : db).

Hypothesis unique_ids : NoDup (map Note._id (notes s)).

Lemma add_notes_isolated : isolated (caller req) s (add_notes e req s).
Proof.
  rewrite add_notes_cases.
  destruct (negb (isEmpty _)); [refused|].
  destruct (negb (truthy (title _))); [refused|].
  destruct (negb (truthy (content _))); [refused|].
  destruct (fault e 0%nat); [refused|].
  destruct (Note.insert _ (notes s)) as [coll|] eqn:Hins; [|refused].
  unfold Note.insert in Hins.
  destruct (negb (Note.validate _)); [discriminate|].
  destruct (existsb _ (notes s)); [discriminate|].
  injection Hins as <-.
  apply isolated_saved; [|reflexivity].
  apply others_snoc_own. reflexivity.
Qed.

(** Saving an edited copy of a note found with the caller's filter. *)
Lemma save_found_isolated (oid : string) (note edited : Note.t)
      (code : Z) (message : string) (failure : response) :
  Note.findOne (Note.by_id_and_owner oid (caller req)) (notes s) = Some note ->
  Note._id edited = Note._id note ->
  Note.userId edited = Note.userId note ->
  Forall (owned_by (caller req)) (values_of failure) ->
  isolated (caller req) s
           match Note.update edited (notes s) with
           | Throw _ => (s, failure)
           | Return coll => (with_notes s coll, note_ok code edited message)
           end.
Proof.
  intros Hfound Hid Howner Hfailure.
  apply findOne_by_id_and_owner in Hfound.
  destruct Hfound as (Hin & _ & Hown).
  unfold Note.update.
  destruct (negb (Note.validate edited)); [apply isolated_refused; exact Hfailure|].
  apply isolated_saved; [|congruence].
  apply others_replace; [congruence|].
  intros m Hm Hsame.
  rewrite (unique_id_owner (notes s) note m unique_ids Hin Hm); [exact Hown|].
  congruence.
Qed.

Lemma edit_notes_isolated : isolated (caller req) s (edit_notes e req s).
Proof.
  rewrite edit_notes_cases.
  destruct (negb (isEmpty _)); [refused|].
  destruct (_ && _ && _); [refused|].
  destruct (castObjectId (noteId req)) as [oid|]; [|refused].
  destruct (fault e 0%nat); [refused|].
  destruct (Note.findOne _ (notes s)) as [note|] eqn:Hfound; [|refused].
  destruct (fault e 1%nat); [refused|].
  apply (save_found_isolated oid note); auto using error_values_owned.
Qed.

Lemma update_note_ispinned_isolated :
  isolated (caller req) s (update_note_ispinned e req s).
Proof.
  rewrite update_note_ispinned_cases.
  destruct (isPinned (body req)) as [b|]; [|refused].
  destruct (castObjectId (noteId req)) as [oid|]; [|refused].
  destruct (fault e 0%nat); [refused|].
  destruct (Note.findOne _ (notes s)) as [note|] eqn:Hfound; [|refused].
  destruct (fault e 1%nat); [refused|].
  apply (save_found_isolated oid note); auto using error_values_owned.
Qed.

Lemma delete_note_isolated : isolated (caller req) s (delete_note e req s).
Proof.
  rewrite delete_note_cases.
  destruct (castObjectId (noteId req)) as [oid|]; [|refused].
  destruct (fault e 0%nat); [refused|].
  destruct (Note.findOne _ (notes s)) as [note|]; [|refused].
  destruct (fault e 1%nat); [refused|].
  unfold isolated. cbn [fst snd with_notes users notes].
  repeat split; [apply others_deleteOne|].
  cbn. repeat (constructor; [no_owner|]). constructor.
Qed.

Lemma get_all_notes_isolated : isolated (caller req) s (get_all_notes e req s).
Proof.
  rewrite get_all_notes_cases.
  destruct (fault e 0%nat); [refused|].
  apply isolated_listing. intros n Hn.
  apply (Permutation_in _ (sort_isPinned_desc_perm _)) in Hn.
  apply filter_In in Hn. apply by_owner_eq. exact (proj2 Hn).
Qed.

Lemma search_notes_isolated : isolated (caller req) s (search_notes e req s).
Proof.
  rewrite search_notes_cases.
  destruct (negb (truthy (query req))); [refused|].
  destruct (RegExp_i _) as [re|]; [|refused].
  destruct (fault e 0%nat); [refused|].
  apply isolated_listing. intros n Hn.
  apply filter_In in Hn. destruct Hn as [_ Hmatch].
  apply andb_prop in Hmatch. apply by_owner_eq. exact (proj1 Hmatch).
Qed.

Lemma note_handler_isolated (route : note_route) :
  isolated (caller req) s (note_handler route e req s).
Proof.
  destruct route; simpl.
  - exact add_notes_isolated.
  - exact edit_notes_isolated.
  - exact get_all_notes_isolated.
  - exact delete_note_isolated.
  - exact update_note_ispinned_isolated.
  - exact search_notes_isolated.
Qed.

End Ownership.

Lemma foreign_id_not_found (coll : list Note.t) (a : Note.t) (uid : string) :
  NoDup (map Note._id coll) ->
  In a coll -> Note.userId a <> uid ->
  Note.findOne (Note.by_id_and_owner (Note._id a) uid) coll = None.
Proof.
  intros Hunique Ha Hforeign.
  destruct (Note.findOne _ coll) as [n|] eqn:Hfound; [|reflexivity].
  apply findOne_by_id_and_owner in Hfound. destruct Hfound as (Hn & Hid & Hown).
  rewrite (unique_id_owner coll a n Hunique Ha Hn Hid) in Hown. contradiction.
Qed.

Section OwnershipIsolation.
Context `{Driver}.

Variables (e : env) (req : request) (s : db).

Hypothesis unique_ids : NoDup (map Note._id (notes s)).

(** A route that names a note by id finds nothing, and changes nothing,
    when the id is that of another owner's note. *)
Lemma foreign_id_refused (route : note_route) (a : Note.t) :
  In a (notes s) -> Note.userId a <> caller req ->
  castObjectId (noteId req) = Some (Note._id a) ->
  route = EditNotes \/ route = DeleteNote \/ route = UpdateNoteIsPinned ->
  fst (note_handler route e req s) = s
  /\ explicit_error (snd (note_handler route e req s)) = true.
Proof.
  intros Ha Hforeign Hcast Hroute.
  pose proof (foreign_id_not_found _ a (caller req) unique_ids Ha Hforeign)
    as Hnone.
  destruct Hroute as [-> | [-> | ->]]; cbn [note_handler].
  - rewrite edit_notes_cases, Hcast, Hnone.
    destruct (negb (isEmpty _)); [split; reflexivity|].
    destruct (_ && _ && _); [split; reflexivity|].
    destruct (fault e 0%nat); split; reflexivity.
  - rewrite delete_note_cases, Hcast, Hnone.
    destruct (fault e 0%nat); split; reflexivity.
  - rewrite update_note_ispinned_cases, Hcast, Hnone.
    destruct (isPinned (body req)); [|split; reflexivity].
    destruct (fault e 0%nat); split; reflexivity.
Qed.

(** C6: a note operation run with the validated identity of one
    account neither changes nor returns a note of another account, and
    refuses the id of such a note as not found. *)
Theorem ownership_isolation (route : note_route) :
  let out := note_handler route e req s in
  others (caller req) (notes (fst out)) = others (caller req) (notes s)
  /\ (forall a,
         In a (notes s) -> Note.userId a <> caller req ->
         ~ In (Note.toJSON a) (values_of (snd out)))
  /\ (forall a,
         In a (notes s) -> Note.userId a <> caller req ->
         castObjectId (noteId req) = Some (Note._id a) ->
         route = EditNotes \/ route = DeleteNote \/ route = UpdateNoteIsPinned ->
         fst out = s /\ explicit_error (snd out) = true).
Proof.
  cbv zeta.
  destruct (note_handler_isolated e req s unique_ids route)
    as (_ & Hothers & Hreturned).
  split; [exact Hothers|]. split.
  - intros a _ Hforeign Hin.
    apply (proj1 (Forall_forall _ _) Hreturned) in Hin.
    specialize (Hin _ (toJSON_userId a)). injection Hin as Hown. contradiction.
  - intros a Ha Hforeign Hcast Hroute.
    exact (foreign_id_refused route a Ha Hforeign Hcast Hroute).
Qed.

(** The ids of the notes stay unique under every note route. *)
Lemma note_handler_keeps_ids_unique (route : note_route) :
  NoDup (map Note._id (notes (fst (note_handler route e req s)))).
Proof.
  destruct route; cbn [note_handler].
  - rewrite add_notes_cases.
    destruct (negb (isEmpty _)); [exact unique_ids|].
    destruct (negb (truthy (title _))); [exact unique_ids|].
    destruct (negb (truthy (content _))); [exact unique_ids|].
    destruct (fault e 0%nat); [exact unique_ids|].
    destruct (Note.insert _ (notes s)) as [coll|] eqn:Hins; [|exact unique_ids].
    unfold Note.insert in Hins.
    destruct (negb (Note.validate _)); [discriminate|].
    destruct (existsb _ (notes s)) eqn:Hex; [discriminate|].
    injection Hins as <-. cbn [fst with_notes notes].
    rewrite map_app. apply NoDup_snoc; [exact unique_ids|].
    intros Hin. apply in_map_iff in Hin. destruct Hin as [m [Hid Hm]].
    assert (Hex' : existsb (fun m => String.eqb (Note._id m)
                                                (Note._id (new_note e req)))
                           (notes s) = true).
    { apply existsb_exists. exists m. split; [exact Hm|].
      apply String.eqb_eq. exact Hid. }
    congruence.
  - rewrite edit_notes_cases.
    destruct (negb (isEmpty _)); [exact unique_ids|].
    destruct (_ && _ && _); [exact unique_ids|].
    destruct (castObjectId _); [|exact unique_ids].
    destruct (fault e 0%nat); [exact unique_ids|].
    destruct (Note.findOne _ _); [|exact unique_ids].
    destruct (fault e 1%nat); [exact unique_ids|].
    unfold Note.update. destruct (negb _); [exact unique_ids|].
    cbn [fst with_notes notes]. rewrite replace_ids. exact unique_ids.
  - rewrite get_all_notes_cases. destruct (fault e 0%nat); exact unique_ids.
  - rewrite delete_note_cases.
    destruct (castObjectId _); [|exact unique_ids].
    destruct (fault e 0%nat); [exact unique_ids|].
    destruct (Note.findOne _ _); [|exact unique_ids].
    destruct (fault e 1%nat); [exact unique_ids|].
    cbn [fst with_notes notes]. apply deleteOne_ids_unique. exact unique_ids.
  - rewrite update_note_ispinned_cases.
    destruct (isPinned _); [|exact unique_ids].
    destruct (castObjectId _); [|exact unique_ids].
    destruct (fault e 0%nat); [exact unique_ids|].
    destruct (Note.findOne _ _); [|exact unique_ids].
    destruct (fault e 1%nat); [exact unique_ids|].
    unfold Note.update. destruct (negb _); [exact unique_ids|].
    cbn [fst with_notes notes]. rewrite replace_ids. exact unique_ids.
  - rewrite search_notes_cases.
    destruct (negb _); [exact unique_ids|].
    destruct (RegExp_i _); [|exact unique_ids].
    destruct (fault e 0%nat); exact unique_ids.
Qed.

End OwnershipIsolation.

(** C10: the listing of [/get-all-notes] holds exactly the notes of the
    caller, the pinned ones before the unpinned ones. *)
Theorem get_all_notes_own_pinned_first (e : env) (req : request) (s : db) :
  fault e 0%nat = None ->
  exists listed,
    get_all_notes e req s
    = (s, notes_ok listed "All notes retrieved successfully")
    /\ Permutation listed (filter (Note.by_owner (caller req)) (notes s))
    /\ (forall n, In n listed <-> In n (notes s) /\ Note.userId n = caller req)
    /\ pinned_first listed.
Proof.
  intros Hup.
  exists (Note.sort_isPinned_desc (Note.find (Note.by_owner (caller req)) (notes s))).
  split; [rewrite get_all_notes_cases, Hup; reflexivity|].
  split; [apply sort_isPinned_desc_perm|].
  split; [|apply sort_isPinned_desc_pinned_first].
  intros n. rewrite <- by_owner_eq, <- filter_In. split.
  - apply Permutation_in. apply sort_isPinned_desc_perm.
  - apply Permutation_in. apply Permutation_sym. apply sort_isPinned_desc_perm.
Qed.

(** ** Further properties of the handlers *)

Section Failures.
Context `{Validator} `{Bcrypt} `{Jwt.Jws} `{Driver}.

(** A response of [/create-account] is the success or an explicit error
    object. *)
Lemma create_account_answers (e : env) (req : request) (s : db) :
  status (snd (create_account e req s)) = 200
  \/ explicit_error (snd (create_account e req s)) = true.
Proof.
  rewrite create_account_cases.
  destruct (negb (isEmpty _)); [right; reflexivity|].
  destruct (fault e 0%nat); [right; reflexivity|].
  destruct (User.findOne_email _ _); [right; reflexivity|].
  destruct (fault e 1%nat); [right; reflexivity|].
  destruct (User.insert _ _); [|right; reflexivity].
  cbv zeta. destruct (Jwt.sign _ _ _ _ _); [left | right]; reflexivity.
Qed.

(** A response of [/login] is the success or an explicit error object. *)
Lemma login_answers (e : env) (req : request) (s : db) :
  status (snd (login e req s)) = 200
  \/ explicit_error (snd (login e req s)) = true.
Proof.
  rewrite login_cases.
  destruct (negb (isEmpty _)); [right; reflexivity|].
  destruct (negb (truthy (email _))); [right; reflexivity|].
  destruct (negb (truthy (password _))); [right; reflexivity|].
  destruct (fault e 0%nat); [right; reflexivity|].
  destruct (User.findOne_email _ _) as [userInfo|]; [|right; reflexivity].
  destruct (_ && _); [|right; reflexivity].
  destruct (Jwt.sign _ _ _ _ _); [left | right]; reflexivity.
Qed.

(** The failure paths of registration and login all answer with an
    explicit error object; those of [/get-user] do, but for the
    bodiless 401. *)
Theorem failures_are_explicit_but_one (e : env) (req : request) (s : db) :
  (status (snd (create_account e req s)) = 200
   \/ explicit_error (snd (create_account e req s)) = true)
  /\ (status (snd (login e req s)) = 200
      \/ explicit_error (snd (login e req s)) = true)
  /\ (status (snd (get_user e req s)) = 200
      \/ explicit_error (snd (get_user e req s)) = true
      \/ snd (get_user e req s) = res_status 401).
Proof.
  split; [apply create_account_answers|].
  split; [apply login_answers|].
  rewrite get_user_cases. cbn [snd].
  destruct (castObjectId _); [|right; left; reflexivity].
  destruct (fault e 0%nat); [right; left; reflexivity|].
  destruct (User.findOne_id _ _); [left | right; right]; reflexivity.
Qed.

(** A login whose password does not verify against the stored hash is
    refused with InvalidCredentials, and one for an email with no
    account with AccountNotFound; neither changes the collections. *)
Theorem login_refusals (e : env) (req : request) (s : db) :
  login_errors (body req) = [] ->
  truthy (email (body req)) = true ->
  truthy (password (body req)) = true ->
  fault e 0%nat = None ->
  match User.findOne_email (toString (email (body req))) (users s) with
  | None => login e req s = (s, AccountNotFound)
  | Some userInfo =>
      bcrypt_compare (toString (password (body req))) (User.password userInfo)
      = false ->
      login e req s = (s, InvalidCredentials)
  end.
Proof.
  intros Hval Hmail Hpw Hup.
  rewrite login_cases, Hval, Hmail, Hpw, Hup. cbn [isEmpty negb].
  destruct (User.findOne_email _ _) as [userInfo|]; [|reflexivity].
  intros Hwrong. rewrite Hwrong, andb_false_r. reflexivity.
Qed.

(** Without a signing secret, [/create-account] stores the account and
    then answers with the internal error: the insert precedes
    [jwt.sign], inside the same [try]. *)
Theorem registration_without_secret (e : env) (req : request) (s : db) :
  create_account_errors (body req) = [] ->
  User.findOne_email (toString (email (body req))) (users s) = None ->
  fault e 0%nat = None -> fault e 1%nat = None ->
  (forall u, In u (users s) -> User._id u <> new_ObjectId e) ->
  ACCESS_TOKEN_SECRET e = None \/ ACCESS_TOKEN_SECRET e = Some "" ->
  create_account e req s = (registered_db e req s, InternalServerError).
Proof.
  intros Hval Hfresh Hup0 Hup1 Hid Hsecret.
  rewrite create_account_cases, Hval, Hup0, Hfresh, Hup1.
  rewrite (insert_fresh_id (registered_user e req) _ Hid).
  rewrite (sign_without_secret _ _ _ _ Hsecret). reflexivity.
Qed.

(** A token in a response of [/create-account] or [/login] is signed
    with the configured secret at the second of the request, and expires
    3600 seconds later. *)
Theorem handlers_issue_one_hour_tokens (e : env) (req : request) (s : db)
        (tok : string) :
  accessToken_of (snd (create_account e req s)) = Some tok
  \/ accessToken_of (snd (login e req s)) = Some tok ->
  exists key p,
    ACCESS_TOKEN_SECRET e = Some key
    /\ Jwt.jws_verify key tok = Some p
    /\ (Jwt.iat p = clock e 1 / 1000 \/ Jwt.iat p = clock e 0 / 1000)
    /\ Jwt.exp p = Jwt.iat p + 3600.
Proof.
  assert (Hsign : forall u o now,
             Jwt.sign u o (ACCESS_TOKEN_SECRET e) Jwt.expiresIn_1h now
             = Return tok ->
             exists key p,
               ACCESS_TOKEN_SECRET e = Some key
               /\ Jwt.jws_verify key tok = Some p
               /\ Jwt.iat p = now / 1000
               /\ Jwt.exp p = Jwt.iat p + 3600).
  { intros u o now Hsigned. unfold Jwt.sign in Hsigned.
    destruct (ACCESS_TOKEN_SECRET e) as [key|]; [|discriminate].
    destruct (String.eqb key ""); [discriminate|].
    injection Hsigned as <-.
    exists key. eexists. split; [reflexivity|].
    split; [apply Jwt.jws_verify_sign|]. split; reflexivity. }
  intros [Hissued | Hissued].
  - rewrite create_account_cases in Hissued.
    destruct (negb (isEmpty _)); [discriminate|].
    destruct (fault e 0%nat); [discriminate|].
    destruct (User.findOne_email _ _); [discriminate|].
    destruct (fault e 1%nat); [discriminate|].
    destruct (User.insert _ _); [|discriminate].
    cbv zeta in Hissued.
    destruct (Jwt.sign _ _ _ _ _) as [t|] eqn:Hsigned; [|discriminate].
    injection Hissued as ->.
    destruct (Hsign _ _ _ Hsigned) as (key & p & Hkey & Hp & Hiat & Hexp).
    exists key, p. auto.
  - rewrite login_cases in Hissued.
    destruct (negb (isEmpty _)); [discriminate|].
    destruct (negb (truthy (email _))); [discriminate|].
    destruct (negb (truthy (password _))); [discriminate|].
    destruct (fault e 0%nat); [discriminate|].
    destruct (User.findOne_email _ _) as [userInfo|]; [|discriminate].
    destruct (_ && _); [|discriminate].
    destruct (Jwt.sign _ _ _ _ _) as [t|] eqn:Hsigned; [|discriminate].
    injection Hissued as ->.
    destruct (Hsign _ _ _ Hsigned) as (key & p & Hkey & Hp & Hiat & Hexp).
    exists key, p. auto.
Qed.

End Failures.

(** ** What the handlers leave alone *)

Section Frames.
Context `{Validator} `{Bcrypt} `{Jwt.Jws} `{Driver}.

(** [/login], [/get-user], [/get-all-notes] and [/search-notes/] write
    nothing: the collections are the same after any request, whatever
    it answers. *)
Theorem reading_handlers_write_nothing (e : env) (req : request) (s : db) :
  fst (login e req s) = s
  /\ fst (get_user e req s) = s
  /\ fst (get_all_notes e req s) = s
  /\ fst (search_notes e req s) = s.
Proof.
  split; [|split; [|split]].
  - rewrite login_cases.
    destruct (negb (isEmpty _)); [reflexivity|].
    destruct (negb (truthy (email _))); [reflexivity|].
    destruct (negb (truthy (password _))); [reflexivity|].
    destruct (fault e 0%nat); [reflexivity|].
    destruct (User.findOne_email _ _); [|reflexivity].
    destruct (_ && _); [|reflexivity].
    destruct (Jwt.sign _ _ _ _ _); reflexivity.
  - rewrite get_user_cases. reflexivity.
  - rewrite get_all_notes_cases. destruct (fault e 0%nat); reflexivity.
  - rewrite search_notes_cases.
    destruct (negb _); [reflexivity|].
    destruct (RegExp_i _); [|reflexivity].
    destruct (fault e 0%nat); reflexivity.
Qed.

Ltac kept_or_done :=
  split; [reflexivity | first [left; reflexivity
                              | right; left; reflexivity
                              | right; right; reflexivity]].

(** A note route never touches the accounts, and it changes the notes
    only when it answers 200 or 201: a refused or failed request leaves
    the database as it was. *)
Theorem note_routes_fail_whole (route : note_route)
        (e : env) (req : request) (s : db) :
  users (fst (note_handler route e req s)) = users s
  /\ (fst (note_handler route e req s) = s
      \/ status (snd (note_handler route e req s)) = 200
      \/ status (snd (note_handler route e req s)) = 201).
Proof.
  destruct route; cbn [note_handler].
  - rewrite add_notes_cases.
    destruct (negb (isEmpty _)); [kept_or_done|].
    destruct (negb (truthy (title _))); [kept_or_done|].
    destruct (negb (truthy (content _))); [kept_or_done|].
    destruct (fault e 0%nat); [kept_or_done|].
    destruct (Note.insert _ _); kept_or_done.
  - rewrite edit_notes_cases.
    destruct (negb (isEmpty _)); [kept_or_done|].
    destruct (_ && _ && _); [kept_or_done|].
    destruct (castObjectId _); [|kept_or_done].
    destruct (fault e 0%nat); [kept_or_done|].
    destruct (Note.findOne _ _); [|kept_or_done].
    destruct (fault e 1%nat); [kept_or_done|].
    destruct (Note.update _ _); kept_or_done.
  - rewrite get_all_notes_cases. destruct (fault e 0%nat); kept_or_done.
  - rewrite delete_note_cases.
    destruct (castObjectId _); [|kept_or_done].
    destruct (fault e 0%nat); [kept_or_done|].
    destruct (Note.findOne _ _); [|kept_or_done].
    destruct (fault e 1%nat); kept_or_done.
  - rewrite update_note_ispinned_cases.
    destruct (isPinned _); [|kept_or_done].
    destruct (castObjectId _); [|kept_or_done].
    destruct (fault e 0%nat); [kept_or_done|].
    destruct (Note.findOne _ _); [|kept_or_done].
    destruct (fault e 1%nat); [kept_or_done|].
    destruct (Note.update _ _); kept_or_done.
  - rewrite search_notes_cases.
    destruct (negb _); [kept_or_done|].
    destruct (RegExp_i _); [|kept_or_done].
    destruct (fault e 0%nat); kept_or_done.
Qed.

(** What an answer 200 of [/create-account] tells: the input passed
    validation, no account had the email, and the new account is the
    last of the collection. *)
Lemma create_account_200 (e : env) (req : request) (s : db) :
  status (snd (create_account e req s)) = 200 ->
  create_account_errors (body req) = []
  /\ User.findOne_email (toString (email (body req))) (users s) = None
  /\ (forall u, In u (users s) -> User._id u <> new_ObjectId e)
  /\ fst (create_account e req s) = registered_db e req s.
Proof.
  rewrite create_account_cases.
  destruct (create_account_errors (body req)) as [|err errs];
    [|discriminate].
  cbn [isEmpty negb].
  destruct (fault e 0%nat); [discriminate|].
  destruct (User.findOne_email _ _); [discriminate|].
  destruct (fault e 1%nat); [discriminate|].
  destruct (User.insert _ _) as [coll|] eqn:Hins; [|discriminate].
  cbv zeta. destruct (Jwt.sign _ _ _ _ _); [|discriminate].
  intros _. unfold User.insert in Hins.
  destruct (existsb _ (users s)) eqn:Hex; [discriminate|].
  injection Hins as <-.
  repeat split.
  intros u Hin Hid.
  assert (Hex' : existsb (fun v => String.eqb (User._id v)
                                              (User._id (registered_user e req)))
                         (users s) = true).
  { apply existsb_exists. exists u. split; [exact Hin|].
    apply String.eqb_eq. exact Hid. }
  congruence.
Qed.

(** [/create-account] never changes the notes and never changes or
    removes an account: it adds at most the new account at the end, and
    the account ids stay pairwise distinct. *)
Theorem create_account_appends_one (e : env) (req : request) (s : db) :
  NoDup (map User._id (users s)) ->
  notes (fst (create_account e req s)) = notes s
  /\ (users (fst (create_account e req s)) = users s
      \/ users (fst (create_account e req s)) = users s ++ [registered_user e req])
  /\ NoDup (map User._id (users (fst (create_account e req s)))).
Proof.
  intros Hunique. rewrite create_account_cases.
  destruct (negb (isEmpty _)); [auto|].
  destruct (fault e 0%nat); [auto|].
  destruct (User.findOne_email _ _); [auto|].
  destruct (fault e 1%nat); [auto|].
  destruct (User.insert _ _) as [coll|] eqn:Hins; [|auto].
  unfold User.insert in Hins.
  destruct (existsb _ (users s)) eqn:Hex; [discriminate|].
  injection Hins as <-.
  assert (Hnew : NoDup (map User._id (users s ++ [registered_user e req]))).
  { rewrite map_app. apply NoDup_snoc; [exact Hunique|].
    intros Hin. apply in_map_iff in Hin. destruct Hin as [v [Hid Hv]].
    assert (Hex' : existsb (fun v => String.eqb (User._id v)
                                                (User._id (registered_user e req)))
                           (users s) = true).
    { apply existsb_exists. exists v. split; [exact Hv|].
      apply String.eqb_eq. exact Hid. }
    congruence. }
  cbv zeta. destruct (Jwt.sign _ _ _ _ _); cbn [fst users notes]; auto.
Qed.

Lemma filter_none {A} (f : A -> bool) (l : list A) :
  find f l = None -> filter f l = [].
Proof.
  induction l as [|x l IH]; simpl; [reflexivity|].
  destruct (f x); [discriminate | exact IH].
Qed.

(** Registering an email a second time: once a registration was
    answered 200, a later validated registration with the same email is
    refused with "User already exists" and stores nothing, and the
    collection holds exactly one account with that email. *)
Theorem register_twice (e e2 : env) (req req2 : request) (s : db) :
  status (snd (create_account e req s)) = 200 ->
  create_account_errors (body req2) = [] ->
  email (body req2) = email (body req) ->
  fault e2 0%nat = None ->
  create_account e2 req2 (fst (create_account e req s))
  = (fst (create_account e req s), DuplicateAccount)
  /\ length (filter (fun u => String.eqb (User.email u)
                                         (toString (email (body req))))
                    (users (fst (create_account e req s)))) = 1%nat.
Proof.
  intros Hok Hval Hmail Hup.
  destruct (create_account_200 e req s Hok) as (_ & Hnone & _ & ->).
  split.
  - rewrite create_account_cases, Hval, Hup, Hmail. cbn [isEmpty negb].
    unfold registered_db at 1. cbn [users]. unfold User.findOne_email.
    rewrite (find_app_fresh _ _ (registered_user e req) Hnone
                            (String.eqb_refl _)).
    reflexivity.
  - unfold registered_db. cbn [users]. rewrite filter_app.
    rewrite (filter_none _ _ Hnone). cbn.
    rewrite String.eqb_refl. reflexivity.
Qed.

(** The payload of a token is a stored account, password hash and all:
    a token returned by [/create-account] or [/login] verifies to a
    payload whose [user] is an account of the collection, so its
    [password] is the hash the collection holds. *)
Theorem tokens_embed_the_account (e : env) (req : request) (s : db)
        (tok : string) :
  accessToken_of (snd (create_account e req s)) = Some tok
  \/ accessToken_of (snd (login e req s)) = Some tok ->
  exists key p,
    ACCESS_TOKEN_SECRET e = Some key
    /\ Jwt.jws_verify key tok = Some p
    /\ (In (Jwt.user p) (users (fst (create_account e req s)))
        \/ In (Jwt.user p) (users s))
    /\ In (User.password (Jwt.user p))
          (map User.password (users (fst (create_account e req s)))
           ++ map User.password (users s)).
Proof.
  assert (Hsign : forall u o now,
             Jwt.sign u o (ACCESS_TOKEN_SECRET e) Jwt.expiresIn_1h now
             = Return tok ->
             exists key p,
               ACCESS_TOKEN_SECRET e = Some key
               /\ Jwt.jws_verify key tok = Some p
               /\ Jwt.user p = u).
  { intros u o now Hsigned. unfold Jwt.sign in Hsigned.
    destruct (ACCESS_TOKEN_SECRET e) as [key|]; [|discriminate].
    destruct (String.eqb key ""); [discriminate|].
    injection Hsigned as <-.
    exists key. eexists. split; [reflexivity|].
    split; [apply Jwt.jws_verify_sign | reflexivity]. }
  intros [Hissued | Hissued].
  - rewrite create_account_cases in Hissued |- *.
    destruct (negb (isEmpty _)); [discriminate|].
    destruct (fault e 0%nat); [discriminate|].
    destruct (User.findOne_email _ _); [discriminate|].
    destruct (fault e 1%nat); [discriminate|].
    destruct (User.insert _ _) as [coll|] eqn:Hins; [|discriminate].
    cbv zeta in Hissued |- *.
    destruct (Jwt.sign _ _ _ _ _) as [t|] eqn:Hsigned; [|discriminate].
    injection Hissued as ->.
    destruct (Hsign _ _ _ Hsigned) as (key & p & Hkey & Hp & Hu).
    unfold User.insert in Hins.
    destruct (existsb _ (users s)); [discriminate|].
    injection Hins as <-.
    assert (Hin : In (Jwt.user p) (users s ++ [registered_user e req]))
      by (rewrite Hu; apply in_or_app; right; left; reflexivity).
    exists key, p. cbn [fst users].
    split; [exact Hkey|]. split; [exact Hp|]. split; [left; exact Hin|].
    apply in_or_app. left. apply in_map. exact Hin.
  - rewrite login_cases in Hissued.
    destruct (negb (isEmpty _)); [discriminate|].
    destruct (negb (truthy (email _))); [discriminate|].
    destruct (negb (truthy (password _))); [discriminate|].
    destruct (fault e 0%nat); [discriminate|].
    destruct (User.findOne_email _ _) as [userInfo|] eqn:Hfound; [|discriminate].
    destruct (_ && _); [|discriminate].
    destruct (Jwt.sign _ _ _ _ _) as [t|] eqn:Hsigned; [|discriminate].
    injection Hissued as ->.
    destruct (Hsign _ _ _ Hsigned) as (key & p & Hkey & Hp & Hu).
    apply find_some in Hfound. destruct Hfound as [Hin _].
    exists key, p. rewrite Hu.
    split; [exact Hkey|]. split; [exact Hp|].
    split; [right; exact Hin|].
    apply in_or_app. right. apply in_map. exact Hin.
Qed.

End Frames.


(** ** The life of a note *)

Lemma truthy_nonempty (v : option string) :
  truthy v = true -> negb (String.eqb (toString v) "") = true.
Proof. destruct v as [t|]; simpl; [trivial | discriminate]. Qed.

Lemma note_errors_content (b : req_body) :
  note_errors b = [] -> truthy (content b) = true.
Proof.
  intros Hval. unfold note_errors in Hval. split_checks Hval.
  apply notEmpty_truthy. exact Hval.
Qed.

Lemma note_errors_tags (b : req_body) :
  note_errors b = [] -> defined (tags b) = true.
Proof.
  intros Hval. unfold note_errors in Hval. split_checks Hval.
  destruct (tags b); [reflexivity | discriminate].
Qed.

Lemma note_insert_fresh (n : Note.t) (coll : list Note.t) :
  Note.validate n = true ->
  (forall m, In m coll -> Note._id m <> Note._id n) ->
  Note.insert n coll = Return (coll ++ [n]).
Proof.
  intros Hvalid Hfresh. unfold Note.insert. rewrite Hvalid. cbn [negb].
  destruct (existsb _ coll) eqn:Hex; [|reflexivity].
  apply existsb_exists in Hex. destruct Hex as [m [Hin Heq]].
  apply String.eqb_eq in Heq. exfalso. exact (Hfresh m Hin Heq).
Qed.

Lemma find_fresh_id (oid uid : string) (coll : list Note.t) :
  (forall m, In m coll -> Note._id m <> oid) ->
  find (Note.by_id_and_owner oid uid) coll = None.
Proof.
  intros Hfresh.
  destruct (find _ coll) as [m|] eqn:Hfound; [|reflexivity].
  apply find_some in Hfound. destruct Hfound as [Hin Hmatch].
  unfold Note.by_id_and_owner in Hmatch. apply andb_prop in Hmatch.
  destruct Hmatch as [Hid _]. apply String.eqb_eq in Hid.
  exfalso. exact (Hfresh m Hin Hid).
Qed.

Lemma deleteOne_snoc (f : Note.t -> bool) (coll : list Note.t) (n : Note.t) :
  find f coll = None -> f n = true -> Note.deleteOne f (coll ++ [n]) = coll.
Proof.
  intros Hnone Hn. induction coll as [|m coll IH]; simpl in *.
  - rewrite Hn. reflexivity.
  - destruct (f m); [discriminate|]. rewrite IH; [reflexivity | exact Hnone].
Qed.

Lemma deleteOne_length (f : Note.t -> bool) (coll : list Note.t) (n : Note.t) :
  find f coll = Some n ->
  S (length (Note.deleteOne f coll)) = length coll.
Proof.
  induction coll as [|m coll IH]; simpl; [discriminate|].
  destruct (f m); [reflexivity|].
  intros Hfound. simpl. rewrite IH; [reflexivity | exact Hfound].
Qed.

Lemma deleteOne_keeps (f : Note.t -> bool) (coll : list Note.t) (m : Note.t) :
  In m coll -> f m = false -> In m (Note.deleteOne f coll).
Proof.
  intros Hin Hm. induction coll as [|x coll IH]; simpl in *; [contradiction|].
  destruct Hin as [-> | Hin].
  - rewrite Hm. left. reflexivity.
  - destruct (f x); [exact Hin | right; apply IH; exact Hin].
Qed.

(** With unique ids, no document matches the filter once its first
    match is removed. *)
Lemma find_after_deleteOne (oid uid : string) (coll : list Note.t) :
  NoDup (map Note._id coll) ->
  find (Note.by_id_and_owner oid uid)
       (Note.deleteOne (Note.by_id_and_owner oid uid) coll) = None.
Proof.
  induction coll as [|m coll IH]; simpl; intros Hunique; [reflexivity|].
  inversion Hunique as [|? ? Hfresh Hrest]; subst.
  destruct (Note.by_id_and_owner oid uid m) eqn:Hm.
  - apply find_fresh_id. intros x Hx Hid.
    unfold Note.by_id_and_owner in Hm. apply andb_prop in Hm.
    destruct Hm as [Hmid _]. apply String.eqb_eq in Hmid.
    apply Hfresh. rewrite Hmid, <- Hid. apply in_map. exact Hx.
  - simpl. rewrite Hm. apply IH. exact Hrest.
Qed.

Lemma replace_Forall2 (R : Note.t -> Note.t -> Prop) (n : Note.t)
      (coll : list Note.t) :
  (forall m, R m m) ->
  (forall m, In m coll -> Note._id m = Note._id n -> R m n) ->
  Forall2 R coll (Note.replace n coll).
Proof.
  intros Hrefl. induction coll as [|m coll IH]; intros Hsame; simpl;
    [constructor|].
  destruct (String.eqb (Note._id m) (Note._id n)) eqn:Hid.
  - apply String.eqb_eq in Hid. constructor.
    + apply Hsame; [left; reflexivity | exact Hid].
    + clear IH Hsame. induction coll; constructor; auto.
  - constructor; [apply Hrefl|].
    apply IH. intros x Hx. apply Hsame. right. exact Hx.
Qed.

Lemma replace_In (n : Note.t) (coll : list Note.t) (m : Note.t) :
  In m coll -> Note._id m = Note._id n -> In n (Note.replace n coll).
Proof.
  intros Hin Hid. induction coll as [|x coll IH]; simpl; [contradiction|].
  destruct (String.eqb (Note._id x) (Note._id n)) eqn:Hsame.
  - left. reflexivity.
  - destruct Hin as [-> | Hin].
    + rewrite Hid, String.eqb_refl in Hsame. discriminate.
    + right. apply IH. exact Hin.
Qed.

Lemma Forall2_same (R : Note.t -> Note.t -> Prop) (coll : list Note.t) :
  (forall m, R m m) -> Forall2 R coll coll.
Proof. intros Hrefl. induction coll; constructor; auto. Qed.

(** What an edit may change of a note: not its id, owner or creation
    time, and a pinned note stays pinned. *)
Definition edit_keeps (before after : Note.t) : Prop :=
  Note._id after = Note._id before
  /\ Note.userId after = Note.userId before
  /\ Note.createdOn after = Note.createdOn before
  /\ (Note.isPinned before = true -> Note.isPinned after = true).

(** What a change of the pin may change of a note: the caller's note
    with the requested id gets the requested flag, and nothing else of
    any note changes. *)
Definition pin_sets (oid uid : string) (b : bool) (before after : Note.t) : Prop :=
  after = before
  \/ (Note._id before = oid
      /\ Note.userId before = uid
      /\ Note.isPinned after = b
      /\ Note._id after = Note._id before
      /\ Note.title after = Note.title before
      /\ Note.content after = Note.content before
      /\ Note.tags after = Note.tags before
      /\ Note.userId after = Note.userId before
      /\ Note.createdOn after = Note.createdOn before).

Section NoteLife.
Context `{Driver}.

(** A note added with [/add-notes] is stored last, owned by the caller,
    unpinned, and the caller's next [/get-all-notes] lists it. *)
Theorem add_notes_then_listed (e e' : env) (req req' : request) (s : db) :
  note_errors (body req) = [] ->
  truthy (title (body req)) = true ->
  caller req <> "" ->
  fault e 0%nat = None ->
  (forall m, In m (notes s) -> Note._id m <> new_ObjectId e) ->
  caller req' = caller req ->
  fault e' 0%nat = None ->
  add_notes e req s
  = (with_notes s (notes s ++ [new_note e req]),
     note_ok 201 (new_note e req) "New note has been created")
  /\ Note.userId (new_note e req) = caller req
  /\ Note.isPinned (new_note e req) = false
  /\ exists listed,
      get_all_notes e' req' (fst (add_notes e req s))
      = (fst (add_notes e req s),
         notes_ok listed "All notes retrieved successfully")
      /\ In (new_note e req) listed.
Proof.
  intros Hval Htitle Hcaller Hup Hfresh Hsame Hup'.
  assert (Hvalid : Note.validate (new_note e req) = true).
  { unfold Note.validate, new_note. cbn [Note.title Note.content Note.userId].
    rewrite (truthy_nonempty _ Htitle).
    rewrite (truthy_nonempty _ (note_errors_content _ Hval)).
    destruct (String.eqb (caller req) "") eqn:Hempty; [|reflexivity].
    apply String.eqb_eq in Hempty. contradiction. }
  assert (Hrun : add_notes e req s
                 = (with_notes s (notes s ++ [new_note e req]),
                    note_ok 201 (new_note e req) "New note has been created")).
  { rewrite add_notes_cases, Hval, Htitle, Hup.
    rewrite (note_errors_content _ Hval). cbn [isEmpty negb].
    rewrite (note_insert_fresh _ _ Hvalid Hfresh). reflexivity. }
  rewrite Hrun. cbn [fst].
  split; [reflexivity|]. split; [reflexivity|]. split; [reflexivity|].
  eexists. split.
  - rewrite get_all_notes_cases, Hup'. reflexivity.
  - apply (Permutation_in _ (Permutation_sym (sort_isPinned_desc_perm _))).
    apply filter_In. split.
    + cbn [with_notes notes]. apply in_or_app. right. left. reflexivity.
    + apply by_owner_eq. rewrite Hsame. reflexivity.
Qed.

(** Deleting the note just added gives back the notes collection as it
    was before the addition. *)
Theorem add_then_delete_restores (e e' : env) (req req' : request) (s : db) :
  note_errors (body req) = [] ->
  truthy (title (body req)) = true ->
  caller req <> "" ->
  fault e 0%nat = None ->
  (forall m, In m (notes s) -> Note._id m <> new_ObjectId e) ->
  caller req' = caller req ->
  castObjectId (noteId req') = Some (new_ObjectId e) ->
  fault e' 0%nat = None -> fault e' 1%nat = None ->
  status (snd (add_notes e req s)) = 201
  /\ status (snd (delete_note e' req' (fst (add_notes e req s)))) = 200
  /\ notes (fst (delete_note e' req' (fst (add_notes e req s)))) = notes s
  /\ users (fst (delete_note e' req' (fst (add_notes e req s)))) = users s.
Proof.
  intros Hval Htitle Hcaller Hup Hfresh Hsame Hcast Hup0 Hup1.
  assert (Hvalid : Note.validate (new_note e req) = true).
  { unfold Note.validate, new_note. cbn [Note.title Note.content Note.userId].
    rewrite (truthy_nonempty _ Htitle).
    rewrite (truthy_nonempty _ (note_errors_content _ Hval)).
    destruct (String.eqb (caller req) "") eqn:Hempty; [|reflexivity].
    apply String.eqb_eq in Hempty. contradiction. }
  assert (Hrun : add_notes e req s
                 = (with_notes s (notes s ++ [new_note e req]),
                    note_ok 201 (new_note e req) "New note has been created")).
  { rewrite add_notes_cases, Hval, Htitle, Hup.
    rewrite (note_errors_content _ Hval). cbn [isEmpty negb].
    rewrite (note_insert_fresh _ _ Hvalid Hfresh). reflexivity. }
  assert (Hnone : find (Note.by_id_and_owner (new_ObjectId e) (caller req'))
                       (notes s) = None)
    by (apply find_fresh_id; exact Hfresh).
  assert (Hmatch : Note.by_id_and_owner (new_ObjectId e) (caller req')
                                        (new_note e req) = true).
  { unfold Note.by_id_and_owner, new_note. cbn [Note._id Note.userId].
    rewrite Hsame, !String.eqb_refl. reflexivity. }
  rewrite Hrun. cbn [fst snd].
  split; [reflexivity|].
  rewrite delete_note_cases, Hcast, Hup0, Hup1.
  unfold Note.findOne. cbn [with_notes notes].
  rewrite (find_app_fresh _ _ _ Hnone Hmatch).
  cbn [fst snd with_notes users notes].
  rewrite (deleteOne_snoc _ _ _ Hnone Hmatch).
  repeat split.
Qed.

(** A successful [/delete-note] removes the caller's note with that id
    and no other note, and a repeated delete of the same id is answered
    "Note not found". *)
Theorem delete_note_removes_once (e e2 : env) (req : request) (s : db)
        (n : Note.t) :
  NoDup (map Note._id (notes s)) ->
  castObjectId (noteId req) = Some (Note._id n) ->
  fault e 0%nat = None -> fault e 1%nat = None ->
  In n (notes s) ->
  Note.userId n = caller req ->
  status (snd (delete_note e req s)) = 200
  /\ S (length (notes (fst (delete_note e req s)))) = length (notes s)
  /\ ~ In n (notes (fst (delete_note e req s)))
  /\ (forall m, In m (notes s) -> m <> n ->
                In m (notes (fst (delete_note e req s))))
  /\ delete_note e2 req (fst (delete_note e req s))
     = (fst (delete_note e req s), res_json 400 (error_body "Note not found")).
Proof.
  intros Hunique Hcast Hup0 Hup1 Hin Hown.
  assert (Hmatch : Note.by_id_and_owner (Note._id n) (caller req) n = true).
  { unfold Note.by_id_and_owner. rewrite Hown, !String.eqb_refl. reflexivity. }
  assert (Hfound : Note.findOne (Note.by_id_and_owner (Note._id n) (caller req))
                                (notes s) = Some n).
  { unfold Note.findOne.
    destruct (find _ (notes s)) as [m|] eqn:Hfind.
    - pose proof (findOne_by_id_and_owner _ _ _ _ Hfind) as (Hm & Hid & _).
      rewrite (unique_id_owner (notes s) n m Hunique Hin Hm Hid). reflexivity.
    - apply (find_none _ _ Hfind) in Hin. congruence. }
  assert (Hgone : find (Note.by_id_and_owner (Note._id n) (caller req))
                       (Note.deleteOne (Note.by_id_and_owner (Note._id n) (caller req))
                                       (notes s)) = None)
    by (apply find_after_deleteOne; exact Hunique).
  assert (Hrun : delete_note e req s
                 = (with_notes s
                      (Note.deleteOne (Note.by_id_and_owner (Note._id n) (caller req))
                                      (notes s)),
                    res_json 200
                      (JObj [("error", JBool false);
                             ("message", JStr "Note deleted successfully")]))).
  { rewrite delete_note_cases, Hcast, Hup0, Hfound, Hup1. reflexivity. }
  rewrite Hrun. cbn [fst snd with_notes notes].
  split; [reflexivity|].
  split; [apply (deleteOne_length _ _ n); exact Hfound|].
  split.
  { intros Hstill. apply (find_none _ _ Hgone) in Hstill. congruence. }
  split.
  { intros m Hm Hother. apply deleteOne_keeps; [exact Hm|].
    destruct (Note.by_id_and_owner (Note._id n) (caller req) m) eqn:Hmm;
      [|reflexivity].
    unfold Note.by_id_and_owner in Hmm. apply andb_prop in Hmm.
    destruct Hmm as [Hid _]. apply String.eqb_eq in Hid.
    exfalso. apply Hother.
    exact (unique_id_owner (notes s) n m Hunique Hin Hm Hid). }
  rewrite delete_note_cases, Hcast. unfold Note.findOne.
  cbn [with_notes notes]. rewrite Hgone.
  destruct (fault e2 0%nat); reflexivity.
Qed.

(** [/delete-note] has one failure answer: a malformed id, a failing
    database call, a note of another owner and an absent note are all
    answered 400 "Note not found", with nothing deleted; the handler
    never answers 500. *)
Theorem delete_note_one_failure_answer (e : env) (req : request) (s : db) :
  delete_note e req s = (s, res_json 400 (error_body "Note not found"))
  \/ (status (snd (delete_note e req s)) = 200
      /\ fault e 0%nat = None /\ fault e 1%nat = None
      /\ exists oid n,
          castObjectId (noteId req) = Some oid
          /\ Note.findOne (Note.by_id_and_owner oid (caller req)) (notes s)
             = Some n).
Proof.
  rewrite delete_note_cases.
  destruct (castObjectId (noteId req)) as [oid|]; [|left; reflexivity].
  destruct (fault e 0%nat); [left; reflexivity|].
  destruct (Note.findOne _ _) as [n|] eqn:Hfound; [|left; reflexivity].
  destruct (fault e 1%nat); [left; reflexivity|].
  right. repeat split. exists oid, n. split; [reflexivity | exact Hfound].
Qed.

(** Whatever [/edit-notes] answers, every note keeps its place, id,
    owner and creation time, and no pinned note is unpinned.  When it
    answers 200, the caller's note with the requested id is pinned if
    it was pinned or the request says [isPinned: true], and only then:
    an edit can pin a note but not unpin it. *)
Theorem edit_notes_keeps (e : env) (req : request) (s : db) :
  NoDup (map Note._id (notes s)) ->
  Forall2 edit_keeps (notes s) (notes (fst (edit_notes e req s)))
  /\ (status (snd (edit_notes e req s)) = 200 ->
      exists before after,
        In before (notes s)
        /\ In after (notes (fst (edit_notes e req s)))
        /\ castObjectId (noteId req) = Some (Note._id before)
        /\ Note.userId before = caller req
        /\ Note._id after = Note._id before
        /\ Note.isPinned after
           = Note.isPinned before
             || match isPinned (body req) with
                | Some requested => requested
                | None => false
                end).
Proof.
  intros Hunique.
  assert (Hrefl : forall m, edit_keeps m m) by (intros m; repeat split; auto).
  rewrite edit_notes_cases.
  destruct (negb (isEmpty _));
    [split; [apply Forall2_same, Hrefl | discriminate]|].
  destruct (_ && _ && _);
    [split; [apply Forall2_same, Hrefl | discriminate]|].
  destruct (castObjectId _) as [oid|];
    [|split; [apply Forall2_same, Hrefl | discriminate]].
  destruct (fault e 0%nat);
    [split; [apply Forall2_same, Hrefl | discriminate]|].
  destruct (Note.findOne _ _) as [note|] eqn:Hfound;
    [|split; [apply Forall2_same, Hrefl | discriminate]].
  destruct (fault e 1%nat);
    [split; [apply Forall2_same, Hrefl | discriminate]|].
  unfold Note.update.
  destruct (negb (Note.validate _));
    [split; [apply Forall2_same, Hrefl | discriminate]|].
  cbn [fst snd with_notes notes].
  apply findOne_by_id_and_owner in Hfound.
  destruct Hfound as (Hin & Hoid & Hown).
  split.
  - apply replace_Forall2; [exact Hrefl|].
    intros m Hm Hid. cbn [apply_edit Note._id] in Hid.
    rewrite (unique_id_owner (notes s) note m Hunique Hin Hm Hid).
    unfold edit_keeps, apply_edit.
    cbn [Note._id Note.userId Note.createdOn Note.isPinned].
    repeat split.
    intros Hpinned. rewrite Hpinned.
    destruct (isPinned (body req)) as [[|]|]; reflexivity.
  - intros _. exists note, (apply_edit (body req) note).
    split; [exact Hin|].
    split; [apply (replace_In _ _ note); [exact Hin | reflexivity]|].
    split; [rewrite Hoid; reflexivity|].
    split; [exact Hown|].
    split; [reflexivity|].
    unfold apply_edit. cbn [Note.isPinned].
    destruct (isPinned (body req)) as [[|]|];
      destruct (Note.isPinned note); reflexivity.
Qed.

(** Whatever [/update-note-ispinned] answers, the only change it makes
    is the requested flag on the caller's note with the requested id;
    when it answers 200 that note carries the flag. *)
Theorem update_note_ispinned_sets (e : env) (req : request) (s : db)
        (oid : string) (b : bool) :
  NoDup (map Note._id (notes s)) ->
  castObjectId (noteId req) = Some oid ->
  isPinned (body req) = Some b ->
  Forall2 (pin_sets oid (caller req) b)
          (notes s) (notes (fst (update_note_ispinned e req s)))
  /\ (status (snd (update_note_ispinned e req s)) = 200 ->
      exists n,
        In n (notes (fst (update_note_ispinned e req s)))
        /\ Note._id n = oid /\ Note.userId n = caller req
        /\ Note.isPinned n = b).
Proof.
  intros Hunique Hcast Hflag.
  assert (Hrefl : forall m, pin_sets oid (caller req) b m m)
    by (intros m; left; reflexivity).
  rewrite update_note_ispinned_cases, Hflag, Hcast.
  destruct (fault e 0%nat); [split; [apply Forall2_same, Hrefl | discriminate]|].
  destruct (Note.findOne _ _) as [note|] eqn:Hfound;
    [|split; [apply Forall2_same, Hrefl | discriminate]].
  destruct (fault e 1%nat); [split; [apply Forall2_same, Hrefl | discriminate]|].
  unfold Note.update.
  destruct (negb (Note.validate _));
    [split; [apply Forall2_same, Hrefl | discriminate]|].
  cbn [fst snd with_notes notes].
  apply findOne_by_id_and_owner in Hfound.
  destruct Hfound as (Hin & Hid & Hown).
  split.
  - apply replace_Forall2; [exact Hrefl|].
    intros m Hm Hsame. cbn [set_isPinned Note._id] in Hsame.
    rewrite (unique_id_owner (notes s) note m Hunique Hin Hm Hsame).
    right. unfold set_isPinned.
    cbn [Note._id Note.title Note.content Note.tags Note.isPinned
         Note.userId Note.createdOn].
    rewrite orb_false_r. repeat split; assumption.
  - intros _. exists (set_isPinned b note).
    split; [|unfold set_isPinned;
             cbn [Note._id Note.userId Note.isPinned];
             rewrite orb_false_r; repeat split; assumption].
    apply (replace_In _ _ note); [exact Hin | reflexivity].
Qed.

End NoteLife.


(** ** Answers and their bodies *)

(** The top-level [message] of a response. *)
Definition message_of (r : response) : option string :=
  match sent r with
  | Some j =>
      match get "message" j with
      | Some (JStr m) => Some m
      | _ => None
      end
  | None => None
  end.

(** [answers r m]: the response carries the message [m]. *)
Definition answers (r : response) (m : string) : bool :=
  match message_of r with
  | Some x => String.eqb x m
  | None => false
  end.

(** No value of a response has a [password] field. *)
Definition omits_password (r : response) : Prop :=
  Forall (fun j => get "password" j = None) (values_of r).

Lemma error_omits_password (code : Z) (message : string) :
  omits_password (res_json code (error_body message)).
Proof. unfold omits_password. cbn. repeat constructor. Qed.

Lemma strings_omit_password (l : list string) :
  Forall (fun j => get "password" j = None) (flat_map subvalues (map JStr l)).
Proof.
  induction l as [|t l IH]; cbn; [constructor|].
  constructor; [reflexivity | exact IH].
Qed.

Lemma validation_error_omits_password (errors : list verr) :
  omits_password (validation_error errors).
Proof.
  unfold omits_password. cbn. do 4 (constructor; [reflexivity|]).
  rewrite app_nil_r.
  apply Forall_flat_map, Forall_map, Forall_forall. intros e _.
  unfold verr_toJSON. destruct (value e) as [|t|l]; cbn.
  - repeat constructor.
  - repeat constructor.
  - do 3 (constructor; [reflexivity|]).
    apply Forall_app. split; [apply strings_omit_password|].
    repeat constructor.
Qed.

Section Answers.
Context `{Validator} `{Bcrypt} `{Jwt.Jws} `{Driver}.

(** Two answers the handlers spell out are never given: the
    validation chains reject, with "Validation error", every request
    that would reach them.  [/edit-notes] never answers "No Changes
    Provided" (the chain wants [tags] to be an array, and an array is
    truthy), and [/login] never answers "Email is required" (the chain
    wants a non-empty email). *)
Theorem unreachable_answers (e : env) (req : request) (s : db) :
  answers (snd (edit_notes e req s)) "No Changes Provided" = false
  /\ answers (snd (login e req s)) "Email is required" = false.
Proof.
  split.
  - rewrite edit_notes_cases.
    destruct (note_errors (body req)) as [|err errs] eqn:Hval; [|reflexivity].
    cbn [isEmpty negb].
    rewrite (note_errors_tags _ Hval), andb_false_r.
    destruct (castObjectId _); [|reflexivity].
    destruct (fault e 0%nat); [reflexivity|].
    destruct (Note.findOne _ _); [|reflexivity].
    destruct (fault e 1%nat); [reflexivity|].
    destruct (Note.update _ _); reflexivity.
  - rewrite login_cases.
    destruct (login_errors (body req)) as [|err errs] eqn:Hval; [|reflexivity].
    cbn [isEmpty negb].
    unfold login_errors in Hval. split_checks Hval.
    rewrite (notEmpty_truthy _ Hcheck). cbn [negb].
    destruct (negb (truthy (password _))); [reflexivity|].
    destruct (fault e 0%nat); [reflexivity|].
    destruct (User.findOne_email _ _); [|reflexivity].
    destruct (_ && _); [|reflexivity].
    destruct (Jwt.sign _ _ _ _ _); reflexivity.
Qed.

(** [/login] and [/get-user] return no [password] field, in no answer
    and at no depth of the body. *)
Theorem login_and_get_user_omit_password (e : env) (req : request) (s : db) :
  omits_password (snd (login e req s))
  /\ omits_password (snd (get_user e req s)).
Proof.
  split.
  - rewrite login_cases.
    destruct (negb (isEmpty _)); [apply validation_error_omits_password|].
    destruct (negb (truthy (email _))); [apply error_omits_password|].
    destruct (negb (truthy (password _))); [apply error_omits_password|].
    destruct (fault e 0%nat); [apply error_omits_password|].
    destruct (User.findOne_email _ _); [|apply error_omits_password].
    destruct (_ && _); [|apply error_omits_password].
    destruct (Jwt.sign _ _ _ _ _); [|apply error_omits_password].
    unfold omits_password. cbn. repeat constructor.
  - rewrite get_user_cases. cbn [snd].
    destruct (castObjectId _); [|apply error_omits_password].
    destruct (fault e 0%nat); [apply error_omits_password|].
    destruct (User.findOne_id _ _).
    + unfold omits_password. cbn. repeat constructor.
    + unfold omits_password. cbn. constructor.
Qed.

(** The input [/create-account] accepts: a name of letters, white space
    and apostrophes, at least one of them; a non-empty email that
    [isEmail] accepts; a password of 5 to 25 characters.  Any other
    input is answered 400 "Validation error" and stores nothing. *)
Theorem create_account_accepts_exactly (e : env) (req : request) (s : db) :
  (create_account_errors (body req) = [] <->
   (toString (fullName (body req)) <> ""
    /\ Forall (fun c => is_letter c || is_space c || Ascii.eqb c "'" = true)
              (list_ascii_of_string (toString (fullName (body req))))
    /\ toString (email (body req)) <> ""
    /\ isEmail (toString (email (body req))) = true
    /\ (5 <= String.length (toString (password (body req))) <= 25)%nat))
  /\ (create_account_errors (body req) <> [] ->
      fst (create_account e req s) = s
      /\ status (snd (create_account e req s)) = 400
      /\ answers (snd (create_account e req s)) "Validation error" = true).
Proof.
  assert (Hnonempty : forall v, notEmpty v = true <-> v <> "").
  { intros v. unfold notEmpty. rewrite negb_true_iff. apply String.eqb_neq. }
  split.
  - split.
    + intros Hval. unfold create_account_errors in Hval. split_checks Hval.
      unfold matches_name, all_chars in Hcheck0.
      apply andb_prop in Hcheck0. destruct Hcheck0 as [_ Hchars].
      unfold isLength in Hval. apply andb_prop in Hval.
      destruct Hval as [Hmin Hmax].
      apply Nat.leb_le in Hmin. apply Nat.leb_le in Hmax.
      split; [apply Hnonempty; exact Hcheck|].
      split; [apply Forall_forall; apply forallb_forall; exact Hchars|].
      split; [apply Hnonempty; exact Hcheck1|].
      split; [exact Hcheck2|]. split; assumption.
    + intros (Hname & Hchars & Hmail & Hvalid & Hmin & Hmax).
      assert (Hpw : toString (password (body req)) <> "")
        by (intros Hempty; rewrite Hempty in Hmin; simpl in Hmin; lia).
      unfold create_account_errors, matches_name, all_chars, isLength.
      rewrite (proj2 (Hnonempty _) Hname), (proj2 (Hnonempty _) Hmail),
        (proj2 (Hnonempty _) Hpw), Hvalid.
      rewrite (proj2 (forallb_forall _ _) (proj1 (Forall_forall _ _) Hchars)).
      rewrite (proj2 (Nat.leb_le _ _) Hmin), (proj2 (Nat.leb_le _ _) Hmax).
      reflexivity.
  - intros Hbad. rewrite create_account_cases.
    destruct (create_account_errors (body req)); [contradiction|].
    repeat split.
Qed.

(** A successful search returns, in collection order, the caller's notes
    whose title or content the expression matches, and each of them is
    in the listing of [/get-all-notes]. *)
Theorem search_within_listing (e e' : env) (req : request) (s : db) :
  status (snd (search_notes e req s)) = 200 ->
  fault e' 0%nat = None ->
  exists re found listed,
    RegExp_i (toString (query req)) = Some re
    /\ search_notes e req s
       = (s, notes_ok found "Search notes successfully retrieved")
    /\ found = filter (fun n => Note.by_owner (caller req) n
                                && (re (Note.title n) || re (Note.content n)))
                      (notes s)
    /\ (forall n, In n found <->
                  In n (notes s) /\ Note.userId n = caller req
                  /\ (re (Note.title n) = true \/ re (Note.content n) = true))
    /\ get_all_notes e' req s
       = (s, notes_ok listed "All notes retrieved successfully")
    /\ incl found listed.
Proof.
  intros Hok Hup'. rewrite search_notes_cases in Hok |- *.
  destruct (negb (truthy (query req))); [discriminate|].
  destruct (RegExp_i _) as [re|]; [|discriminate].
  destruct (fault e 0%nat); [discriminate|].
  exists re. eexists. eexists.
  split; [reflexivity|]. split; [reflexivity|]. split; [reflexivity|].
  split.
  { intros n. unfold Note.find. rewrite filter_In, andb_true_iff, orb_true_iff.
    rewrite by_owner_eq. tauto. }
  split; [rewrite get_all_notes_cases, Hup'; reflexivity|].
  intros n Hn.
  apply (Permutation_in _ (Permutation_sym (sort_isPinned_desc_perm _))).
  unfold Note.find in *. apply filter_In in Hn. destruct Hn as [Hin Hmatch].
  apply andb_prop in Hmatch. apply filter_In. split; [exact Hin | apply Hmatch].
Qed.

End Answers.


(** ** What the collections always hold *)

(** A note as the routes store it: a title of 1 to 225 characters, a
    content, an owner, and tags of fewer than 25 characters without
    white space. *)
Definition note_wf (n : Note.t) : Prop :=
  Note.title n <> ""
  /\ (String.length (Note.title n) <= 225)%nat
  /\ Note.content n <> ""
  /\ Note.userId n <> ""
  /\ Forall (fun t => tag_ok t = true) (Note.tags n).

(** An account as registration stores it: a validated name and email,
    and a 60-character hash for a password. *)
Definition account_wf `{Validator} (u : User.t) : Prop :=
  matches_name (User.fullName u) = true
  /\ User.email u <> ""
  /\ isEmail (User.email u) = true
  /\ String.length (User.password u) = 60%nat.

Lemma truthy_toString (v : option string) :
  truthy v = true -> toString v <> "".
Proof.
  destruct v as [t|]; simpl; [|discriminate].
  intros Ht. apply String.eqb_neq. apply negb_true_iff. exact Ht.
Qed.

Lemma note_errors_accepted (b : req_body) :
  note_errors b = [] ->
  (String.length (toString (title b)) <= 225)%nat
  /\ toString (content b) <> ""
  /\ exists l, tags b = Some l /\ Forall (fun t => tag_ok t = true) l.
Proof.
  intros Hval. unfold note_errors in Hval. split_checks Hval.
  unfold isLength in Hcheck. apply andb_prop in Hcheck.
  destruct Hcheck as [_ Hmax]. apply Nat.leb_le in Hmax.
  split; [exact Hmax|]. split.
  - apply truthy_toString, notEmpty_truthy. exact Hval.
  - destruct (tags b) as [l|]; [|discriminate].
    exists l. split; [reflexivity|].
    apply Forall_forall. apply forallb_forall. exact Hcheck1.
Qed.

Lemma validate_nonempty (n : Note.t) :
  Note.validate n = true ->
  Note.title n <> "" /\ Note.content n <> "" /\ Note.userId n <> "".
Proof.
  unfold Note.validate. intros Hvalid.
  apply andb_prop in Hvalid. destruct Hvalid as [Hvalid Howner].
  apply andb_prop in Hvalid. destruct Hvalid as [Htitle Hcontent].
  repeat split; apply String.eqb_neq, negb_true_iff; assumption.
Qed.

Lemma replace_Forall (P : Note.t -> Prop) (n : Note.t) (coll : list Note.t) :
  Forall P coll -> P n -> Forall P (Note.replace n coll).
Proof.
  intros Hall Hn. induction Hall as [|m coll Hm Hall IH]; simpl;
    [constructor|].
  destruct (String.eqb (Note._id m) (Note._id n)); constructor; assumption.
Qed.

Lemma deleteOne_Forall (P : Note.t -> Prop) (f : Note.t -> bool)
      (coll : list Note.t) :
  Forall P coll -> Forall P (Note.deleteOne f coll).
Proof.
  intros Hall. induction Hall as [|m coll Hm Hall IH]; simpl; [constructor|].
  destruct (f m); [exact Hall | constructor; assumption].
Qed.

Section Invariants.
Context `{Validator} `{Bcrypt} `{Jwt.Jws} `{Driver}.

(** No note route stores a note with an empty title, a title of more
    than 225 characters, an empty content, no owner, or a tag that is
    too long or holds white space. *)
Theorem notes_stay_wellformed (route : note_route)
        (e : env) (req : request) (s : db) :
  Forall note_wf (notes s) ->
  Forall note_wf (notes (fst (note_handler route e req s))).
Proof.
  intros Hall. destruct route; cbn [note_handler].
  - rewrite add_notes_cases.
    destruct (note_errors (body req)) as [|err errs] eqn:Hval; [|exact Hall].
    cbn [isEmpty negb].
    destruct (negb (truthy (title _))); [exact Hall|].
    destruct (negb (truthy (content _))); [exact Hall|].
    destruct (fault e 0%nat); [exact Hall|].
    destruct (Note.insert _ _) as [coll|] eqn:Hins; [|exact Hall].
    unfold Note.insert in Hins.
    destruct (Note.validate (new_note e req)) eqn:Hvalid; [|discriminate].
    cbn [negb] in Hins.
    destruct (existsb _ (notes s)); [discriminate|].
    injection Hins as <-. cbn [fst with_notes notes].
    apply Forall_app. split; [exact Hall|].
    constructor; [|constructor].
    destruct (validate_nonempty _ Hvalid) as (Htitle & Hcontent & Howner).
    destruct (note_errors_accepted _ Hval) as (Hmax & _ & l & Htags & Hok).
    unfold note_wf. repeat split; try assumption.
    cbn [new_note Note.tags]. rewrite Htags. exact Hok.
  - rewrite edit_notes_cases.
    destruct (note_errors (body req)) as [|err errs] eqn:Hval; [|exact Hall].
    cbn [isEmpty negb].
    destruct (_ && _ && _); [exact Hall|].
    destruct (castObjectId _); [|exact Hall].
    destruct (fault e 0%nat); [exact Hall|].
    destruct (Note.findOne _ _) as [note|] eqn:Hfound; [|exact Hall].
    destruct (fault e 1%nat); [exact Hall|].
    unfold Note.update. destruct (negb _); [exact Hall|].
    cbn [fst with_notes notes].
    apply replace_Forall; [exact Hall|].
    apply find_some in Hfound. destruct Hfound as [Hin _].
    destruct (proj1 (Forall_forall _ _) Hall note Hin)
      as (Htitle & Hlen & Hcontent & Howner & Htags).
    destruct (note_errors_accepted _ Hval) as (Hmax & _ & l & Hl & Hok).
    unfold note_wf, apply_edit.
    cbn [Note.title Note.content Note.tags Note.userId].
    rewrite Hl.
    destruct (truthy (title (body req))) eqn:Ht;
      destruct (truthy (content (body req))) eqn:Hc;
      repeat split; try assumption; apply truthy_toString; assumption.
  - rewrite get_all_notes_cases. destruct (fault e 0%nat); exact Hall.
  - rewrite delete_note_cases.
    destruct (castObjectId _); [|exact Hall].
    destruct (fault e 0%nat); [exact Hall|].
    destruct (Note.findOne _ _); [|exact Hall].
    destruct (fault e 1%nat); [exact Hall|].
    cbn [fst with_notes notes]. apply deleteOne_Forall. exact Hall.
  - rewrite update_note_ispinned_cases.
    destruct (isPinned _) as [b|]; [|exact Hall].
    destruct (castObjectId _); [|exact Hall].
    destruct (fault e 0%nat); [exact Hall|].
    destruct (Note.findOne _ _) as [note|] eqn:Hfound; [|exact Hall].
    destruct (fault e 1%nat); [exact Hall|].
    unfold Note.update. destruct (negb _); [exact Hall|].
    cbn [fst with_notes notes].
    apply replace_Forall; [exact Hall|].
    apply find_some in Hfound. destruct Hfound as [Hin _].
    exact (proj1 (Forall_forall _ _) Hall note Hin).
  - rewrite search_notes_cases.
    destruct (negb _); [exact Hall|].
    destruct (RegExp_i _); [|exact Hall].
    destruct (fault e 0%nat); exact Hall.
Qed.

(** Registration stores only validated names and emails, and never a
    password that is not a 60-character hash. *)
Theorem accounts_stay_wellformed (e : env) (req : request) (s : db) :
  Forall account_wf (users s) ->
  Forall account_wf (users (fst (create_account e req s))).
Proof.
  intros Hall. rewrite create_account_cases.
  destruct (create_account_errors (body req)) as [|err errs] eqn:Hval;
    [|exact Hall].
  cbn [isEmpty negb].
  destruct (fault e 0%nat); [exact Hall|].
  destruct (User.findOne_email _ _); [exact Hall|].
  destruct (fault e 1%nat); [exact Hall|].
  destruct (User.insert _ _) as [coll|] eqn:Hins; [|exact Hall].
  unfold User.insert in Hins.
  destruct (existsb _ (users s)); [discriminate|].
  injection Hins as <-.
  assert (Hnew : Forall account_wf (users s ++ [registered_user e req])).
  { apply Forall_app. split; [exact Hall|].
    constructor; [|constructor].
    unfold create_account_errors in Hval. split_checks Hval.
    unfold account_wf, registered_user.
    cbn [User.fullName User.email User.password].
    split; [exact Hcheck0|].
    split; [apply String.eqb_neq, negb_true_iff; exact Hcheck1|].
    split; [exact Hcheck2 | apply bcrypt_hash_length]. }
  cbv zeta. destruct (Jwt.sign _ _ _ _ _); exact Hnew.
Qed.

(** The profile behind a fresh registration: [/get-user], called with
    the identity of the account a registration just stored, answers
    with that account's name, email, id and creation time. *)
Theorem register_then_get_user (e e' : env) (req req' : request) (s : db) :
  status (snd (create_account e req s)) = 200 ->
  caller req' = new_ObjectId e ->
  castObjectId (new_ObjectId e) = Some (new_ObjectId e) ->
  fault e' 0%nat = None ->
  get_user e' req' (fst (create_account e req s))
  = (fst (create_account e req s), user_ok (registered_user e req)).
Proof.
  intros Hok Hcaller Hcast Hup.
  destruct (create_account_200 e req s Hok) as (_ & _ & Hfresh & ->).
  rewrite get_user_cases. fold (caller req'). rewrite Hcaller, Hcast, Hup.
  unfold registered_db at 2. cbn [users]. unfold User.findOne_id.
  rewrite (find_app_fresh _ _ (registered_user e req)).
  - reflexivity.
  - destruct (find _ (users s)) as [u|] eqn:Hfound; [|reflexivity].
    apply find_some in Hfound. destruct Hfound as [Hin Hid].
    apply String.eqb_eq in Hid. exfalso. exact (Hfresh u Hin Hid).
  - apply String.eqb_refl.
Qed.

End Invariants.


(** * Concrete runs

    The handlers run on concrete requests, with the stand-ins of
    [Fixture] for the libraries. *)

Section Runs.

#[local] Existing Instance Fixture.validator.
#[local] Existing Instance Fixture.bcrypt.
#[local] Existing Instance Fixture.jws.
#[local] Existing Instance Fixture.driver.

(** Alice registers at 1000.5 s on an empty database. *)
Definition at_registration : env := Fixture.env_at 1000500 Fixture.alice_id.

Definition alice : User.t := registered_user at_registration Fixture.alice_req.

Definition alice_db : db :=
  registered_db at_registration Fixture.alice_req Fixture.empty_db.

(** [{ fullName: "Bob B", email: "bob@x.com", password: "hunter22" }] *)
Definition bob_req : request :=
  {| body := {| fullName := Some "Bob B"; email := Some "bob@x.com";
                password := Some "hunter22"; title := None; content := None;
                tags := None; isPinned := None |};
     user := Fixture.anonymous; noteId := ""; query := None |}.

(** Alice's account once more under another id: same email. *)
Definition alice_twin : User.t :=
  {| User._id := Fixture.bob_id;
     User.fullName := "Alice A";
     User.email := "alice@x.com";
     User.password := User.password alice;
     User.createdOn := 2000000 |}.

(** The insert of the request fails with a duplicate-key error, as it
    does when another registration has stored the email since the
    lookup and the collection has a unique index. *)
Definition duplicate_key_at_insert : env :=
  {| ACCESS_TOKEN_SECRET := Some "s3cret";
     clock := fun _ => 2000000;
     new_ObjectId := Fixture.bob_id;
     salt := "saltsaltsaltsaltsalt22";
     fault := fun k => match k with
                       | 1%nat => Some MongoDuplicateKey
                       | _ => None
                       end |}.

(** A request that carries the validated token of [u]. *)
Definition as_user (u : User.t) (b : req_body) (id : string) : request :=
  {| body := b;
     user := {| Jwt.user := u; Jwt.keys := User.Stored;
              Jwt.iat := 1000; Jwt.exp := 4600 |};
     noteId := id;
     query := None |}.

Definition bob : User.t :=
  {| User._id := Fixture.bob_id; User.fullName := "Bob B";
     User.email := "bob@x.com"; User.password := "";
     User.createdOn := 2000000 |}.

Definition alice_note : Note.t :=
  {| Note._id := "77a000000000000000000001";
     Note.title := "Plans"; Note.content := "Private";
     Note.tags := []; Note.isPinned := false;
     Note.userId := Fixture.alice_id; Note.createdOn := 1500000 |}.

Definition bob_note (id : string) (pinned : bool) : Note.t :=
  {| Note._id := id;
     Note.title := "Shopping"; Note.content := "Milk";
     Note.tags := ["home"]; Note.isPinned := pinned;
     Note.userId := Fixture.bob_id; Note.createdOn := 2500000 |}.

Definition two_owner_db : db :=
  {| users := [alice; bob];
     notes := [bob_note "77b000000000000000000001" false;
               alice_note;
               bob_note "77b000000000000000000002" true] |}.

(** Bob edits with the id of Alice's note. *)
Definition bob_edits_alice_note : request :=
  as_user bob
          {| fullName := None; email := None; password := None;
             title := Some "Mine now"; content := Some "Overwritten";
             tags := Some []; isPinned := Some true |}
          (Note._id alice_note).

Lemma register_existing_email_witness :
  In alice (users alice_db)
  /\ fst (create_account (Fixture.env_at 2000000 Fixture.bob_id)
                         Fixture.alice_req alice_db) = alice_db
  /\ snd (create_account (Fixture.env_at 2000000 Fixture.bob_id)
                         Fixture.alice_req alice_db) = DuplicateAccount.
Proof.
  assert (Hin : In alice (users alice_db)) by (left; reflexivity).
  destruct (register_existing_email (Fixture.env_at 2000000 Fixture.bob_id)
                                    Fixture.alice_req alice_db alice
                                    Hin eq_refl) as [Hkept Hrefused].
  split; [exact Hin|]. split; [exact Hkept|].
  apply Hrefused; reflexivity.
Defined.

Lemma register_fresh_then_login_witness :
  create_account_errors (body Fixture.alice_req) = []
  /\ create_account at_registration Fixture.alice_req Fixture.empty_db
     = (alice_db,
        registration_ok alice
          (token_for "s3cret" alice User.Constructed 1000500))
  /\ login (Fixture.env_at 5000000 Fixture.bob_id) Fixture.alice_req alice_db
     = (alice_db,
        login_ok "alice@x.com"
          (token_for "s3cret" alice User.Stored 5000000)).
Proof.
  unshelve epose proof
    (register_fresh_then_login
       at_registration Fixture.alice_req Fixture.empty_db "s3cret"
       _ _ _ _ _ _ _
       (Fixture.env_at 5000000 Fixture.bob_id) Fixture.alice_req "s3cret"
       _ _ _ _ _) as Hrun;
    [first [reflexivity | discriminate | intros u []] .. |].
  destruct Hrun as (Hregistered & _ & _ & _ & Hlogin).
  split; [reflexivity|]. split; [exact Hregistered | exact Hlogin].
Defined.

Lemma registration_response_exposes_hash_witness :
  status (snd (create_account at_registration Fixture.alice_req
                              Fixture.empty_db)) = 200
  /\ exists j u,
      sent (snd (create_account at_registration Fixture.alice_req
                                Fixture.empty_db)) = Some j
      /\ get "user" j = Some u
      /\ get "password" u
         = Some (JStr "$2b$10$pass1................................................")
      /\ mem_string "$2b$10$pass1................................................"
                    (strings_outside "accessToken" j) = true.
Proof.
  unshelve epose proof
    (registration_response_exposes_hash
       at_registration Fixture.alice_req Fixture.empty_db "s3cret"
       _ _ _ _ _ _ _) as Hrun;
    [first [reflexivity | discriminate | intros u []] .. |].
  destruct Hrun as (Hstatus & _ & Hbody).
  split; [exact Hstatus | exact Hbody].
Defined.

(** A login half a second after the registration, in the same clock
    second and under the same secret. *)
Lemma login_token_is_fresh_witness :
  clock at_registration 1 / 1000
  = clock (Fixture.env_at 1000900 Fixture.bob_id) 0 / 1000
  /\ exists tok tok',
      accessToken_of (snd (create_account at_registration Fixture.alice_req
                                          Fixture.empty_db)) = Some tok
      /\ accessToken_of (snd (login (Fixture.env_at 1000900 Fixture.bob_id)
                                    Fixture.alice_req alice_db)) = Some tok'
      /\ tok <> tok'.
Proof.
  unshelve epose proof
    (login_token_is_fresh
       at_registration Fixture.alice_req Fixture.empty_db "s3cret"
       _ _ _ _ _ _ _
       (Fixture.env_at 1000900 Fixture.bob_id) Fixture.alice_req "s3cret"
       _ _ _ _ _) as Hrun;
    [first [reflexivity | discriminate | intros u []] .. |].
  split; [reflexivity | exact Hrun].
Defined.

(** A second registration of Alice's email, a tenth of a second after
    the first and before the first has saved. *)
Definition at_second_registration : env :=
  Fixture.env_at 1000600 Fixture.bob_id.

Lemma concurrent_registrations_share_an_email_witness :
  (users (fst (register_concurrently at_registration Fixture.alice_req
                                     at_second_registration Fixture.alice_req
                                     Fixture.empty_db))
   = [alice; registered_user at_second_registration Fixture.alice_req]
   /\ map User.email
          (users (fst (register_concurrently
                         at_registration Fixture.alice_req
                         at_second_registration Fixture.alice_req
                         Fixture.empty_db)))
      = ["alice@x.com"; "alice@x.com"]
   /\ status (fst (snd (register_concurrently
                          at_registration Fixture.alice_req
                          at_second_registration Fixture.alice_req
                          Fixture.empty_db))) = 200
   /\ status (snd (snd (register_concurrently
                          at_registration Fixture.alice_req
                          at_second_registration Fixture.alice_req
                          Fixture.empty_db))) = 200)
  /\ users (fst (register_concurrently at_registration Fixture.alice_req
                                       duplicate_key_at_insert Fixture.alice_req
                                       Fixture.empty_db))
     = [alice]
  /\ snd (snd (register_concurrently at_registration Fixture.alice_req
                                     duplicate_key_at_insert Fixture.alice_req
                                     Fixture.empty_db))
     = {| status := 500;
          sent := Some (JObj [("error", JBool true);
                              ("message", JStr "Internal Server Error")]) |}.
Proof.
  unshelve epose proof
    (concurrent_registrations_share_an_email
       at_registration Fixture.alice_req
       at_second_registration Fixture.alice_req
       Fixture.empty_db "s3cret" "s3cret"
       _ _ _ _ _ _ _ _ _ _ _ _ _ _) as Hboth;
    [first [reflexivity | discriminate | intros u []] .. |].
  unshelve epose proof
    (concurrent_registrations_share_an_email
       at_registration Fixture.alice_req
       duplicate_key_at_insert Fixture.alice_req
       Fixture.empty_db "s3cret" "s3cret"
       _ _ _ _ _ _ _ _ _ _ _ _ _ _) as Hone;
    [first [reflexivity | discriminate | intros u []] .. |].
  cbv zeta in Hboth, Hone.
  destruct Hboth as [Hboth _]. destruct Hone as [_ Hone].
  destruct (Hboth eq_refl) as (Husers & _ & _ & Hfirst & Hsecond).
  destruct (Hone eq_refl) as (Hkept & _ & Hanswer & _).
  split.
  - split; [exact Husers|].
    split; [rewrite Husers; reflexivity|].
    split; [exact Hfirst | exact Hsecond].
  - split; [exact Hkept | exact Hanswer].
Defined.

Lemma register_unique_by_lookup_witness :
  NoDup (map User.email (users alice_db))
  /\ create_account duplicate_key_at_insert bob_req alice_db
     = (alice_db, InternalServerError).
Proof.
  assert (Hunique : NoDup (map User.email (users alice_db)))
    by (constructor; [intros [] | constructor]).
  destruct (register_unique_by_lookup duplicate_key_at_insert bob_req alice_db
                                      Hunique) as [_ Hfailure].
  split; [exact Hunique|].
  apply (Hfailure MongoDuplicateKey); [reflexivity|].
  right. split; [reflexivity|]. split; [reflexivity|]. left. reflexivity.
Defined.

(** The collection takes a second account with a stored email, and the
    duplicate-key failure of an insert is answered with status 500. *)
Lemma duplicate_key_is_internal_error :
  User.insert alice_twin (users alice_db) = Return [alice; alice_twin]
  /\ User.email alice_twin = User.email alice
  /\ fault duplicate_key_at_insert 1%nat = Some MongoDuplicateKey
  /\ create_account duplicate_key_at_insert bob_req alice_db
     = (alice_db, InternalServerError)
  /\ status InternalServerError = 500
  /\ status DuplicateAccount = 400.
Proof. repeat split; vm_compute; reflexivity. Qed.

Lemma get_user_unknown_account_sends_nothing_witness :
  get_user (Fixture.env_at 2000000 Fixture.bob_id)
           (as_user alice Fixture.empty_body "") Fixture.empty_db
  = (Fixture.empty_db, {| status := 401; sent := None |}).
Proof.
  unshelve epose proof
    (get_user_unknown_account_sends_nothing
       (Fixture.env_at 2000000 Fixture.bob_id)
       (as_user alice Fixture.empty_body "") Fixture.empty_db Fixture.alice_id
       _ _ _) as Hrun;
    [first [reflexivity | discriminate | intros u []] .. |].
  exact (proj1 Hrun).
Defined.

Lemma validate_issued_token_witness :
  exists tok p,
    Jwt.sign alice User.Stored (Some "s3cret") Jwt.expiresIn_1h 1000500
    = Return tok
    /\ ValidateToken "s3cret" 1000500 tok = inr p
    /\ Jwt.user p = alice
    /\ identity p = Fixture.alice_id.
Proof.
  apply (validate_issued_token alice User.Stored "s3cret" 1000500).
  discriminate.
Defined.

Lemma issued_token_expires_after_an_hour_witness :
  exists tok,
    Jwt.sign alice User.Stored (Some "s3cret") Jwt.expiresIn_1h 1000500
    = Return tok
    /\ ValidateToken "s3cret" (1000500 + 61 * 60 * 1000) tok = inl ExpiredToken.
Proof.
  destruct (issued_token_expires_after_an_hour alice User.Stored
                                               "s3cret" 1000500)
    as (tok & Hsigned & _ & Hexpired & _); [discriminate|].
  exists tok. split; [exact Hsigned | exact Hexpired].
Defined.

(** A token for Alice signed with another key, expiring one hour after
    second 1000: 61 minutes later it fails with InvalidToken, while
    the token signed with the secret fails with ExpiredToken. *)
Lemma forged_expired_token_is_invalid :
  ValidateToken "s3cret" (1000500 + 61 * 60 * 1000)
                (token_for "not-the-secret" alice User.Stored 1000500)
  = inl InvalidToken
  /\ ValidateToken "s3cret" (1000500 + 61 * 60 * 1000)
                   (token_for "s3cret" alice User.Stored 1000500)
     = inl ExpiredToken
  /\ Jwt.jws_verify "not-the-secret"
                    (token_for "not-the-secret" alice User.Stored 1000500)
     = Some {| Jwt.user := alice; Jwt.keys := User.Stored;
               Jwt.iat := 1000; Jwt.exp := 4600 |}.
Proof. repeat split; vm_compute; reflexivity. Qed.

Lemma ownership_isolation_witness :
  NoDup (map Note._id (notes two_owner_db))
  /\ castObjectId (noteId bob_edits_alice_note) = Some (Note._id alice_note)
  /\ fst (note_handler EditNotes (Fixture.env_at 3000000 "77b000000000000000000003")
                       bob_edits_alice_note two_owner_db) = two_owner_db
  /\ explicit_error
       (snd (note_handler EditNotes
                          (Fixture.env_at 3000000 "77b000000000000000000003")
                          bob_edits_alice_note two_owner_db)) = true.
Proof.
  assert (Hunique : NoDup (map Note._id (notes two_owner_db))).
  { repeat constructor; simpl; intuition discriminate. }
  destruct (ownership_isolation
              (Fixture.env_at 3000000 "77b000000000000000000003")
              bob_edits_alice_note two_owner_db Hunique EditNotes)
    as (_ & _ & Hforeign).
  split; [exact Hunique|]. split; [reflexivity|].
  apply (Hforeign alice_note).
  - right. left. reflexivity.
  - discriminate.
  - reflexivity.
  - left. reflexivity.
Defined.

Lemma get_all_notes_own_pinned_first_witness :
  get_all_notes (Fixture.env_at 3000000 "")
                (as_user bob Fixture.empty_body "") two_owner_db
  = (two_owner_db,
     notes_ok [bob_note "77b000000000000000000002" true;
               bob_note "77b000000000000000000001" false]
              "All notes retrieved successfully")
  /\ exists listed,
      get_all_notes (Fixture.env_at 3000000 "")
                    (as_user bob Fixture.empty_body "") two_owner_db
      = (two_owner_db, notes_ok listed "All notes retrieved successfully")
      /\ pinned_first listed.
Proof.
  split; [reflexivity|].
  destruct (get_all_notes_own_pinned_first
              (Fixture.env_at 3000000 "")
              (as_user bob Fixture.empty_body "") two_owner_db eq_refl)
    as (listed & Hrun & _ & _ & Hfirst).
  exists listed. split; [exact Hrun | exact Hfirst].
Defined.

(** [{ email: "alice@x.com", password: "wrong" }] *)
Definition wrong_password_req : request :=
  {| body := {| fullName := None; email := Some "alice@x.com";
                password := Some "wrong"; title := None; content := None;
                tags := None; isPinned := None |};
     user := Fixture.anonymous; noteId := ""; query := None |}.

Lemma login_refusals_witness :
  login (Fixture.env_at 5000000 Fixture.bob_id) wrong_password_req alice_db
  = (alice_db, InvalidCredentials)
  /\ login (Fixture.env_at 5000000 Fixture.bob_id) bob_req alice_db
     = (alice_db, AccountNotFound).
Proof.
  split.
  - exact (login_refusals (Fixture.env_at 5000000 Fixture.bob_id)
                          wrong_password_req alice_db
                          eq_refl eq_refl eq_refl eq_refl eq_refl).
  - exact (login_refusals (Fixture.env_at 5000000 Fixture.bob_id)
                          bob_req alice_db
                          eq_refl eq_refl eq_refl eq_refl).
Defined.

(** The environment of a process started without ACCESS_TOKEN_SECRET. *)
Definition without_secret : env :=
  {| ACCESS_TOKEN_SECRET := None;
     clock := fun _ => 1000500;
     new_ObjectId := Fixture.alice_id;
     salt := "saltsaltsaltsaltsalt22";
     fault := fun _ => None |}.

Lemma registration_without_secret_witness :
  create_account without_secret Fixture.alice_req Fixture.empty_db
  = ({| users := [alice]; notes := [] |}, InternalServerError).
Proof.
  unshelve epose proof
    (registration_without_secret without_secret Fixture.alice_req
                                 Fixture.empty_db _ _ _ _ _ _) as Hrun;
    [first [reflexivity | intros u [] | left; reflexivity] .. |].
  exact Hrun.
Defined.

Lemma handlers_issue_one_hour_tokens_witness :
  exists key p,
    ACCESS_TOKEN_SECRET at_registration = Some key
    /\ Jwt.jws_verify key (token_for "s3cret" alice User.Constructed 1000500)
       = Some p
    /\ (Jwt.iat p = clock at_registration 1 / 1000
        \/ Jwt.iat p = clock at_registration 0 / 1000)
    /\ Jwt.exp p = Jwt.iat p + 3600.
Proof.
  apply (handlers_issue_one_hour_tokens at_registration Fixture.alice_req
                                        Fixture.empty_db).
  left. reflexivity.
Defined.

(** Bob adds a note. *)
Definition bob_adds : request :=
  as_user bob
          {| fullName := None; email := None; password := None;
             title := Some "Errands"; content := Some "Post office";
             tags := Some ["town"]; isPinned := None |}
          "".

Lemma note_handler_keeps_ids_unique_witness :
  NoDup (map Note._id
             (notes (fst (note_handler AddNotes
                            (Fixture.env_at 3000000 "77b000000000000000000003")
                            bob_adds two_owner_db))))
  /\ length (notes (fst (note_handler AddNotes
                           (Fixture.env_at 3000000 "77b000000000000000000003")
                           bob_adds two_owner_db))) = 4%nat.
Proof.
  split; [|reflexivity].
  apply (note_handler_keeps_ids_unique
           (Fixture.env_at 3000000 "77b000000000000000000003")
           bob_adds two_owner_db).
  repeat constructor; simpl; intuition discriminate.
Defined.

(** *** Further runs *)

Definition at_three : env :=
  Fixture.env_at 3000000 "77b000000000000000000003".

Definition first_bob_note : Note.t := bob_note "77b000000000000000000001" false.

Lemma two_owner_ids_unique : NoDup (map Note._id (notes two_owner_db)).
Proof. repeat constructor; simpl; intuition discriminate. Qed.

Lemma two_owner_db_wellformed : Forall note_wf (notes two_owner_db).
Proof.
  repeat constructor; try discriminate; cbn; try lia.
Qed.

Lemma create_account_appends_one_witness :
  NoDup (map User._id (users alice_db))
  /\ NoDup (map User._id
                (users (fst (create_account (Fixture.env_at 2000000 Fixture.bob_id)
                                            bob_req alice_db))))
  /\ length (users (fst (create_account (Fixture.env_at 2000000 Fixture.bob_id)
                                        bob_req alice_db))) = 2%nat.
Proof.
  assert (Hunique : NoDup (map User._id (users alice_db)))
    by (constructor; [intros [] | constructor]).
  destruct (create_account_appends_one (Fixture.env_at 2000000 Fixture.bob_id)
                                       bob_req alice_db Hunique)
    as (_ & _ & Hkept).
  split; [exact Hunique|]. split; [exact Hkept | reflexivity].
Defined.

Lemma register_twice_witness :
  create_account (Fixture.env_at 2000000 Fixture.bob_id) Fixture.alice_req alice_db
  = (alice_db, DuplicateAccount)
  /\ length (filter (fun u => String.eqb (User.email u) "alice@x.com")
                    (users alice_db)) = 1%nat.
Proof.
  exact (register_twice at_registration (Fixture.env_at 2000000 Fixture.bob_id)
                        Fixture.alice_req Fixture.alice_req Fixture.empty_db
                        eq_refl eq_refl eq_refl eq_refl).
Defined.

Lemma tokens_embed_the_account_witness :
  exists key p,
    ACCESS_TOKEN_SECRET at_registration = Some key
    /\ Jwt.jws_verify key (token_for "s3cret" alice User.Constructed 1000500)
       = Some p
    /\ (In (Jwt.user p) (users alice_db) \/ In (Jwt.user p) [])
    /\ In (User.password (Jwt.user p))
          (map User.password (users alice_db) ++ []).
Proof.
  exact (tokens_embed_the_account at_registration Fixture.alice_req
                                  Fixture.empty_db
                                  (token_for "s3cret" alice User.Constructed
                                             1000500)
                                  (or_introl eq_refl)).
Defined.

Lemma add_notes_then_listed_witness :
  status (snd (add_notes at_three bob_adds two_owner_db)) = 201
  /\ exists listed,
      get_all_notes at_three (as_user bob Fixture.empty_body "")
                    (fst (add_notes at_three bob_adds two_owner_db))
      = (fst (add_notes at_three bob_adds two_owner_db),
         notes_ok listed "All notes retrieved successfully")
      /\ In (new_note at_three bob_adds) listed.
Proof.
  unshelve epose proof
    (add_notes_then_listed at_three at_three bob_adds
                           (as_user bob Fixture.empty_body "") two_owner_db
                           _ _ _ _ _ _ _) as Hrun;
    [first [reflexivity | discriminate
           | intros m [<- | [<- | [<- | []]]]; discriminate] .. |].
  destruct Hrun as (Hadded & _ & _ & Hlisted).
  split; [rewrite Hadded; reflexivity | exact Hlisted].
Defined.

Lemma add_then_delete_restores_witness :
  notes (fst (delete_note at_three
                (as_user bob Fixture.empty_body "77b000000000000000000003")
                (fst (add_notes at_three bob_adds two_owner_db))))
  = notes two_owner_db.
Proof.
  unshelve epose proof
    (add_then_delete_restores
       at_three at_three bob_adds
       (as_user bob Fixture.empty_body "77b000000000000000000003")
       two_owner_db _ _ _ _ _ _ _ _ _) as Hrun;
    [first [reflexivity | discriminate
           | intros m [<- | [<- | [<- | []]]]; discriminate] .. |].
  exact (proj1 (proj2 (proj2 Hrun))).
Defined.

Lemma delete_note_removes_once_witness :
  status (snd (delete_note at_three
                 (as_user bob Fixture.empty_body "77b000000000000000000001")
                 two_owner_db)) = 200
  /\ length (notes (fst (delete_note at_three
                           (as_user bob Fixture.empty_body
                                    "77b000000000000000000001")
                           two_owner_db))) = 2%nat.
Proof.
  unshelve epose proof
    (delete_note_removes_once
       at_three at_three
       (as_user bob Fixture.empty_body "77b000000000000000000001")
       two_owner_db first_bob_note two_owner_ids_unique _ _ _ _ _) as Hrun;
    [first [reflexivity | left; reflexivity] .. |].
  destruct Hrun as (Hok & _). split; [exact Hok | reflexivity].
Defined.

(** Bob edits his pinned note and asks for it to be unpinned. *)
Definition bob_edits_pinned : request :=
  as_user bob
          {| fullName := None; email := None; password := None;
             title := Some "Groceries"; content := Some "Milk and eggs";
             tags := Some []; isPinned := Some false |}
          "77b000000000000000000002".

(** Bob edits his unpinned note and asks for it to be pinned. *)
Definition bob_edits_and_pins : request :=
  as_user bob
          {| fullName := None; email := None; password := None;
             title := Some "Groceries"; content := Some "Milk and eggs";
             tags := Some []; isPinned := Some true |}
          "77b000000000000000000001".

Lemma edit_notes_keeps_witness :
  status (snd (edit_notes at_three bob_edits_pinned two_owner_db)) = 200
  /\ In (apply_edit (body bob_edits_pinned)
                    (bob_note "77b000000000000000000002" true))
        (notes (fst (edit_notes at_three bob_edits_pinned two_owner_db)))
  /\ Forall2 edit_keeps (notes two_owner_db)
             (notes (fst (edit_notes at_three bob_edits_pinned two_owner_db)))
  /\ (exists before after,
         In before (notes two_owner_db)
         /\ In after (notes (fst (edit_notes at_three bob_edits_pinned
                                             two_owner_db)))
         /\ castObjectId (noteId bob_edits_pinned) = Some (Note._id before)
         /\ Note.userId before = caller bob_edits_pinned
         /\ Note._id after = Note._id before
         /\ Note.isPinned after = Note.isPinned before || false)
  /\ (exists before after,
         In before (notes two_owner_db)
         /\ In after (notes (fst (edit_notes at_three bob_edits_and_pins
                                             two_owner_db)))
         /\ castObjectId (noteId bob_edits_and_pins) = Some (Note._id before)
         /\ Note.userId before = caller bob_edits_and_pins
         /\ Note._id after = Note._id before
         /\ Note.isPinned after = Note.isPinned before || true).
Proof.
  destruct (edit_notes_keeps at_three bob_edits_pinned two_owner_db
                             two_owner_ids_unique) as [Hkept Hunpin].
  destruct (edit_notes_keeps at_three bob_edits_and_pins two_owner_db
                             two_owner_ids_unique) as [_ Hpin].
  split; [reflexivity|].
  split; [right; right; left; reflexivity|].
  split; [exact Hkept|].
  split; [apply Hunpin; reflexivity | apply Hpin; reflexivity].
Defined.

(** Bob pins his first note. *)
Definition bob_pins : request :=
  as_user bob
          {| fullName := None; email := None; password := None;
             title := None; content := None;
             tags := None; isPinned := Some true |}
          "77b000000000000000000001".

Lemma update_note_ispinned_sets_witness :
  exists n,
    In n (notes (fst (update_note_ispinned at_three bob_pins two_owner_db)))
    /\ Note._id n = "77b000000000000000000001"
    /\ Note.userId n = caller bob_pins
    /\ Note.isPinned n = true.
Proof.
  unshelve epose proof
    (update_note_ispinned_sets at_three bob_pins two_owner_db
                               "77b000000000000000000001" true
                               two_owner_ids_unique _ _) as Hrun;
    [reflexivity .. |].
  destruct Hrun as [_ Hset].
  apply Hset. reflexivity.
Defined.

(** Bob searches his notes for "Milk". *)
Definition bob_searches : request :=
  {| body := Fixture.empty_body;
     user := {| Jwt.user := bob; Jwt.keys := User.Stored;
              Jwt.iat := 1000; Jwt.exp := 4600 |};
     noteId := "";
     query := Some "Milk" |}.

Lemma search_within_listing_witness :
  exists re found listed,
    RegExp_i (toString (query bob_searches)) = Some re
    /\ search_notes at_three bob_searches two_owner_db
       = (two_owner_db, notes_ok found "Search notes successfully retrieved")
    /\ found = filter (fun n => Note.by_owner (caller bob_searches) n
                                && (re (Note.title n) || re (Note.content n)))
                      (notes two_owner_db)
    /\ (forall n, In n found <->
                  In n (notes two_owner_db)
                  /\ Note.userId n = caller bob_searches
                  /\ (re (Note.title n) = true \/ re (Note.content n) = true))
    /\ get_all_notes at_three bob_searches two_owner_db
       = (two_owner_db, notes_ok listed "All notes retrieved successfully")
    /\ incl found listed.
Proof.
  apply (search_within_listing at_three at_three bob_searches two_owner_db);
    reflexivity.
Defined.

Lemma notes_stay_wellformed_witness :
  Forall note_wf
         (notes (fst (note_handler AddNotes at_three bob_adds two_owner_db))).
Proof.
  exact (notes_stay_wellformed AddNotes at_three bob_adds two_owner_db
                               two_owner_db_wellformed).
Defined.

Lemma accounts_stay_wellformed_witness :
  Forall account_wf
         (users (fst (create_account at_registration Fixture.alice_req
                                     Fixture.empty_db))).
Proof.
  apply (accounts_stay_wellformed at_registration Fixture.alice_req
                                  Fixture.empty_db).
  constructor.
Defined.

Lemma register_then_get_user_witness :
  get_user (Fixture.env_at 2000000 Fixture.bob_id)
           (as_user alice Fixture.empty_body "") alice_db
  = (alice_db, user_ok alice).
Proof.
  unshelve epose proof
    (register_then_get_user at_registration
                            (Fixture.env_at 2000000 Fixture.bob_id)
                            Fixture.alice_req
                            (as_user alice Fixture.empty_body "")
                            Fixture.empty_db _ _ _ _) as Hrun;
    [reflexivity .. |].
  exact Hrun.
Defined.


End Runs.
